(** * The selection overlay of the designer simulator

    A shallow embedding of [packages/designer/src/simulator/selection.tsx]:
    the function components [SelectionTools], [SelectionBox],
    [SelectionHelpers], [SelectionHelper], [SelectionToolSet],
    [NameSelector], [InsertedDropdown] and [InsertedItem] become functions
    from their props to a tree of React nodes; the closures they install as
    event handlers become the sequence of calls they make on the workspace,
    on the drag event and on the helpers. *)

From Stdlib Require Import QArith Qround Qabs.
From Stdlib Require Import PrimFloat FloatOps SpecFloat.
From stdpp Require Import base option list strings gmap.

Set Warnings "-register-all,-inexact-float".

Local Open Scope string_scope.
Local Open Scope list_scope.

(** ** Values of the host language *)

Module Js.

(** [!x] on a number is true exactly at zero; the coordinates of a
    bounding rectangle are finite, so they are taken as rationals. *)
Definition truthy_number (x : Q) : bool := negb (Qeq_bool x 0).

(** The empty string is the only falsy string. *)
Definition truthy_string (s : string) : bool :=
  match s with
  | EmptyString => false
  | String _ _ => true
  end.

(** [a || b] where [a] is a string that may be undefined. *)
Definition or_string (a : option string) (b : string) : string :=
  match a with
  | Some s => if truthy_string s then s else b
  | None => b
  end.

(** [a === b] on strings that may be undefined. *)
Definition strict_eq (a b : option string) : bool := bool_decide (a = b).

(** [xs.slice(n)] for [0 <= n]. *)
Definition slice {A} (n : nat) (xs : list A) : list A := drop n xs.

(** [xs.map((x, index) => f x index)]. *)
Fixpoint mapi_from {A B} (start : nat) (f : A -> nat -> B) (xs : list A) : list B :=
  match xs with
  | [] => []
  | x :: rest => f x start :: mapi_from (S start) f rest
  end.

Definition mapi {A B} (f : A -> nat -> B) (xs : list A) : list B :=
  mapi_from 0 f xs.

End Js.

(** ** Numbers of the host language *)

(** The numbers are binary64 floating-point numbers. A finite one is kept
    as the rational it denotes; a sum of finite numbers is the exact sum
    rounded to the nearest number, to the even one at a tie, and to an
    infinity past the largest. *)
Module Double.

Inductive Number :=
| Finite (q : Q)
| PlusInfinity
| MinusInfinity
| NaN.

Definition pow2 (k : Z) : Q := (2 ^ k)%Q.

(** The integer nearest to [x], the even one at a tie. *)
Definition nearest_even (x : Q) : Z :=
  let f := Qfloor x in
  match (x - inject_Z f ?= 1 # 2)%Q with
  | Lt => f
  | Gt => (f + 1)%Z
  | Eq => if Z.even f then f else (f + 1)%Z
  end.

(** The [e] with [2 ^ e <= a < 2 ^ (e + 1)], for [0 < a]. *)
Definition exponent (a : Q) : Z :=
  let k := (Z.log2 (Qnum a) - Z.log2 (Zpos (Qden a)))%Z in
  if Qle_bool (pow2 k) a then k else (k - 1)%Z.

(** Rounding to 53 bits of precision, with the exponents of binary64:
    the last place is worth [2 ^ (e - 52)], and never less than
    [2 ^ -1074]; a result of [2 ^ 1024] or more is an infinity. *)
Definition round (s : Q) : Number :=
  if Qeq_bool s 0 then Finite 0
  else
    let a := Qabs s in
    let ulp := pow2 (Z.max (exponent a - 52) (-1074)) in
    let r := Qred (inject_Z (nearest_even (a / ulp)) * ulp) in
    if Qle_bool (pow2 1024) r
    then if Qle_bool 0 s then PlusInfinity else MinusInfinity
    else Finite (if Qle_bool 0 s then r else Qred (- r)).

(** [x + y] *)
Definition add (x y : Number) : Number :=
  match x, y with
  | Finite a, Finite b => round (a + b)
  | NaN, _ | _, NaN => NaN
  | PlusInfinity, MinusInfinity | MinusInfinity, PlusInfinity => NaN
  | PlusInfinity, _ | _, PlusInfinity => PlusInfinity
  | MinusInfinity, _ | _, MinusInfinity => MinusInfinity
  end.

(** [x < y] *)
Definition lt (x y : Number) : bool :=
  match x, y with
  | Finite a, Finite b =>
      match (a ?= b)%Q with
      | Lt => true
      | _ => false
      end
  | NaN, _ | _, NaN => false
  | MinusInfinity, MinusInfinity => false
  | MinusInfinity, _ => true
  | Finite _, PlusInfinity => true
  | _, _ => false
  end.

(** The number a primitive binary64 float denotes, to compare [add] with
    the addition of the machine. *)
Definition of_float (f : float) : Number :=
  match Prim2SF f with
  | S754_zero _ => Finite 0
  | S754_infinity false => PlusInfinity
  | S754_infinity true => MinusInfinity
  | S754_nan => NaN
  | S754_finite s m e =>
      Finite (Qred ((if s then -1 else 1) * inject_Z (Zpos m) * pow2 e))
  end.

Definition same (x y : Number) : bool :=
  match x, y with
  | Finite a, Finite b => Qeq_bool a b
  | PlusInfinity, PlusInfinity
  | MinusInfinity, MinusInfinity
  | NaN, NaN => true
  | _, _ => false
  end.

(** [add] gives what the machine gives on these two floats. *)
Definition agrees_with_machine (x y : float) : bool :=
  same (add (of_float x) (of_float y)) (of_float (x + y)%float).

End Double.

(** ** Data supplied by the workspace *)

(** Modelled from the spec: [DOMRect] is the platform's rectangle; the fields
    the overlay reads are left, top, width and height. *)
Record DOMRect := mkRect {
  left : Q;
  top : Q;
  width : Q;
  height : Q
}.

(** Modelled from the spec: [ISelectedItemData] is declared in the helpers
    package; a selected item has an identifier, a name, an optional codeId,
    the file it comes from, an optional bounding rectangle and the list of
    its ancestors, which are spread into items on re-selection. *)
Inductive ISelectedItemData := mkItem {
  id : string;
  name : string;
  codeId : option string;
  filename : option string;
  bounding : option DOMRect;
  parents : option (list ISelectedItemData)
}.

(** [prototype.childrenName] is one name or an array of names. *)
Inductive ChildrenName :=
| OneName (child : string)
| ManyNames (children : list string).

(** Modelled from the spec: a component prototype has a title, an icon, a
    help text, a type tag and the optional declared child-type names. *)
Record IComponentPrototype := mkPrototype {
  title : option string;
  icon : option string;
  help : option string;
  type : string;
  childrenName : option ChildrenName
}.

Record Viewport := mkViewport { viewport_width : Q; viewport_height : Q }.

Record Designer := mkDesigner { viewport : Viewport }.

(** The part of the workspace the overlay reads. *)
Record Workspace := mkWorkspace {
  componentPrototypes : gmap string IComponentPrototype;
  activeViewFile : option string;
  selected : list ISelectedItemData
}.

(** ** Calls made by the event handlers *)

(** What [getDragGhostElement()] hands back. *)
Inductive HTMLElement := DragGhostElement.

Inductive Call :=
| dataTransfer_effectAllowed (v : string)
| dataTransfer_setDragImage (image : HTMLElement) (x y : Z)
| getDragGhostElement
| dragSource_set (data : ISelectedItemData)
| dragSource_clear
| selectSource_select (data : ISelectedItemData)
| insertToSelectedNode (childName : string).

(** The calls whose receiver is the workspace. *)
Definition is_workspace_call (c : Call) : bool :=
  match c with
  | dragSource_set _ | dragSource_clear
  | selectSource_select _ | insertToSelectedNode _ => true
  | dataTransfer_effectAllowed _ | dataTransfer_setDragImage _ _ _
  | getDragGhostElement => false
  end.

(** A handler body: the calls it has made so far, and its result. *)
Definition Eff (A : Type) : Type := list Call * A.

Definition ret {A} (a : A) : Eff A := ([], a).

Definition bind {A B} (m : Eff A) (k : A -> Eff B) : Eff B :=
  let '(t1, a) := m in
  let '(t2, b) := k a in
  (t1 ++ t2, b).

Definition call (c : Call) : Eff unit := ([c], tt).

Definition trace {A} (m : Eff A) : list Call := fst m.

Notation "x <- m ;; k" := (bind m (fun x => k))
  (at level 100, m at next level, right associativity).
Notation "m ;;; k" := (bind m (fun _ => k))
  (at level 100, right associativity).

(** [noop] of the helpers package. *)
Definition noop {A} (_ : A) : Eff unit := ret tt.

(** ** React nodes *)

Module Css.

(** [translate(${x}px, ${y}px)], kept as the two lengths. *)
Inductive Transform := translate_px (x y : Q).

(** The inline style [SelectionBox] builds: [React.CSSProperties] with the
    two custom properties. *)
Record Properties := mkProperties {
  display : string;
  width : Q;
  height : Q;
  transform : Transform;
  color_active : string;        (* --color-active *)
  color_active_hover : string   (* --color-active-hover *)
}.

End Css.

(** The value of a prop; [N] is the type of nodes, for props that hold an
    element (an icon) or the result of a render callback. *)
Inductive PropValue (N : Type) :=
| PStr (s : string)
| PBool (b : bool)
| PStrs (l : list string)
| PStyle (s : option Css.Properties)
| PHandler (h : Eff unit)
| PNode (n : N).

Arguments PStr {N} s.
Arguments PBool {N} b.
Arguments PStrs {N} l.
Arguments PStyle {N} s.
Arguments PHandler {N} h.
Arguments PNode {N} n.

Inductive ReactNode :=
| Empty                                    (* null, undefined, false *)
| Text (s : string)
| Fragment (children : list ReactNode)     (* <>...</> and arrays of children *)
| Keyed (key : string) (node : ReactNode)  (* an element given a key *)
| Element (component : string)
          (props : list (string * PropValue ReactNode))
          (children : list ReactNode).

Abbreviation Props := (list (string * PropValue ReactNode)).

(** [cond && node] in a child position. *)
Definition when (cond : bool) (node : ReactNode) : ReactNode :=
  if cond then node else Empty.

(** [{s}] for a string that may be undefined. *)
Definition text_of (s : option string) : ReactNode :=
  match s with
  | Some s => Text s
  | None => Empty
  end.

(** The first prop of that name. *)
Fixpoint prop (key : string) (props : Props) : option (PropValue ReactNode) :=
  match props with
  | [] => None
  | (k, v) :: rest => if String.eqb k key then Some v else prop key rest
  end.

(** *** Looking into a rendered tree *)

(** A node, then everything below it in document order: the nodes held by
    its props, then its children. *)
Fixpoint subnodes (n : ReactNode) : list ReactNode :=
  n ::
  match n with
  | Empty | Text _ => []
  | Fragment children => flat_map subnodes children
  | Keyed _ node => subnodes node
  | Element _ props children =>
      flat_map (fun p => match p with
                         | (_, PNode m) => subnodes m
                         | _ => []
                         end) props
      ++ flat_map subnodes children
  end.

Definition is_element (component : string) (n : ReactNode) : bool :=
  match n with
  | Element c _ _ => String.eqb c component
  | _ => false
  end.

(** The props and the children of an element, through its key. *)
Fixpoint props_of (n : ReactNode) : Props :=
  match n with
  | Element _ props _ => props
  | Keyed _ node => props_of node
  | _ => []
  end.

Fixpoint children_of (n : ReactNode) : list ReactNode :=
  match n with
  | Element _ _ children => children
  | Fragment children => children
  | Keyed _ node => children_of node
  | _ => []
  end.

(** The node reached by taking the given child at each step; [Empty] when
    there is no such child. *)
Fixpoint at_path (path : list nat) (n : ReactNode) : ReactNode :=
  match path with
  | [] => n
  | i :: rest =>
      match children_of n !! i with
      | Some child => at_path rest child
      | None => Empty
      end
  end.

(** The handler an element installs for an event, if any. *)
Definition handler (event : string) (n : ReactNode) : option (Eff unit) :=
  match prop event (props_of n) with
  | Some (PHandler h) => Some h
  | _ => None
  end.

(** A prop that holds a handler. *)
Definition is_handler (v : PropValue ReactNode) : bool :=
  match v with
  | PHandler _ => true
  | _ => false
  end.

(** Every handler installed anywhere in a tree, for any event. *)
Definition all_handlers (n : ReactNode) : list (Eff unit) :=
  flat_map (fun m =>
              match m with
              | Element _ props _ =>
                  omap (fun p => match p with
                                 | (_, PHandler h) => Some h
                                 | _ => None
                                 end) props
              | _ => []
              end)
           (subnodes n).

(** Every call some handler of the tree can make. *)
Definition reachable_calls (n : ReactNode) : list Call :=
  flat_map trace (all_handlers n).

(** ** The components *)

(** 选择辅助工具的对齐方式 *)
Inductive SelectionHelperAlignType := top_right | top_left | inner_top_right.

Definition align_name (a : SelectionHelperAlignType) : string :=
  match a with
  | top_right => "top-right"
  | top_left => "top-left"
  | inner_top_right => "inner-top-right"
  end.

(** 检测选中模块的工具栏是否溢出的偏移值 *)
Definition boundingOffset : Q := 100.

Record IInsertedData := mkInserted {
  inserted_name : string;
  inserted_label : string;
  inserted_icon : option string;
  inserted_description : option string
}.

Record SelectionBoxProps := mkBoxProps {
  showActions : bool;
  actions : option (list ReactNode);
  data : ISelectedItemData
}.

Definition SelectionHelpers (align : option SelectionHelperAlignType)
    (children : ReactNode) : ReactNode :=
  let align := default top_right align in
  Element "Group"
    [("display", PStr "inline-flex"); ("my", PStr "s");
     ("css", PStr "selectionHelpersStyle");
     ("data-align", PStr (align_name align))]
    [children].

(** [({ icon, label, children, ...rest })]: the rest reaches the button. *)
Definition SelectionHelper (icon label children : ReactNode) (rest : Props) : ReactNode :=
  Element "Button"
    ([("position", PStr "relative"); ("color", PStr "white");
      ("px", PStr "s"); ("py", PStr "0"); ("border", PStr "0");
      ("borderRadius", PStr "s"); ("fontSize", PStr "12px");
      ("css", PStr "selectionHelperStyle")] ++ rest)
    [icon; label; children].

Definition SelectionToolSet (children : ReactNode) : ReactNode :=
  Element "Box"
    [("className", PStr "SelectionToolSet"); ("borderRadius", PStr "s");
     ("css", PStr "SelectionToolSetStyle")]
    [children].

(** [{ ...parent, parents: rest }] *)
Definition with_parents (parent : ISelectedItemData)
    (rest : list ISelectedItemData) : ISelectedItemData :=
  mkItem (id parent) (name parent) (codeId parent) (filename parent)
         (bounding parent) (Some rest).

Definition NameSelector (label : option string)
    (parents : option (list ISelectedItemData))
    (onSelect : option (ISelectedItemData -> Eff unit)) : ReactNode :=
  let parents := default [] parents in
  let onSelect := default noop onSelect in
  Element "NameSelectorWrapper" []
    [Element "Box" [("as", PStr "span"); ("className", PStr "SelectionName")]
       [text_of label];
     Element "ul" []
       (Js.mapi (fun parent index =>
          Keyed (id parent)
            (SelectionHelper Empty Empty (Text (name parent))
               [("as", PStr "li");
                ("onClick",
                 PHandler (onSelect
                   (with_parents parent (Js.slice (index + 1) parents))))]))
          parents)].

(** The props [InsertedDropdown] hands to each [InsertedItem]. *)
Record InsertedItemProps := mkItemProps {
  item_label : string;
  item_icon : option string;
  item_description : option string;
  item_onClick : option (Eff unit)
}.

(** [InsertedItem] takes [label], [icon] (with its default) and
    [description] out of its props, and nothing else. *)
Definition InsertedItem (props : InsertedItemProps) : ReactNode :=
  let label := item_label props in
  let icon := default "icon-placeholder" (item_icon props) in
  let description := item_description props in
  Element "Box"
    [("display", PStr "flex"); ("columnGap", PStr "m"); ("px", PStr "l");
     ("py", PStr "m"); ("fontSize", PStr "12px");
     ("css", PStr "insertedItemStyle")]
    [Element "Box"
       [("size", PStr "35px"); ("fontSize", PStr "32px");
        ("background", PStr "fill1"); ("border", PStr "1px solid");
        ("borderColor", PStr "line2"); ("display", PStr "flex");
        ("alignItems", PStr "center"); ("justifyContent", PStr "center")]
       [if String.prefix "icon-" icon
        then Element "IconFont"
               [("className", PStr "material-icon"); ("type", PStr icon)] []
        else Element "img" [("src", PStr icon); ("alt", PStr label)] []];
     Element "Box" []
       [Element "Box" [("fontWeight", PStr "500")] [Text label];
        Element "Box" [("color", PStr "text2")] [text_of description]]].

(** [onSelect?.(name)] *)
Definition call_optional {A} (f : option (A -> Eff unit)) (a : A) : Eff unit :=
  match f with
  | Some f => f a
  | None => ret tt
  end.

(** [({ options = [], onSelect, ...props })]; the rest holds the children,
    and [dropdownRender] is kept with the overlay it produces. *)
Definition InsertedDropdown (options : option (list IInsertedData))
    (onSelect : option (string -> Eff unit)) (children : ReactNode) : ReactNode :=
  let options := default [] options in
  Element "Dropdown"
    [("trigger", PStrs ["click"]);
     ("dropdownRender",
      PNode
        (Element "Box"
           [("bg", PStr "#FFF"); ("borderRadius", PStr "m");
            ("boxShadow", PStr "lowDown"); ("border", PStr "solid");
            ("borderColor", PStr "line2"); ("overflow", PStr "hidden")]
           [Element "Box" [("px", PStr "l"); ("py", PStr "m"); ("color", PStr "text2")]
              [Text "为当前节点添加子元素"];
            Element "Box" []
              (map (fun item =>
                 Keyed (inserted_name item)
                   (InsertedItem
                      (mkItemProps (inserted_label item) (inserted_icon item)
                         (inserted_description item)
                         (Some (call_optional onSelect (inserted_name item))))))
                 options)]))]
    [children].

(** *** SelectionBox *)

(** [x < y] on numbers. *)
Definition lt_number (x y : Q) : bool :=
  match (x ?= y)%Q with
  | Lt => true
  | _ => false
  end.

(** [prototype?.type === 'page'] *)
Definition isPage_of (prototype : option IComponentPrototype) : bool :=
  match prototype with
  | Some p => String.eqb (type p) "page"
  | None => false
  end.

(** [prototype?.childrenName], when it is truthy: an array always is, a
    string unless it is empty. *)
Definition declared_children (prototype : option IComponentPrototype)
    : option ChildrenName :=
  match prototype ≫= childrenName with
  | Some (OneName child) =>
      if Js.truthy_string child then Some (OneName child) else None
  | Some (ManyNames children) => Some (ManyNames children)
  | None => None
  end.

(** 如果声明了 childrenName，提供快捷子元素创建入口 *)
Definition insertedList_of (workspace : Workspace)
    (prototype : option IComponentPrototype) : list IInsertedData :=
  match declared_children prototype with
  | Some childrenName =>
      let names :=
        match childrenName with
        | ManyNames children => children
        | OneName child => [child]
        end in
      map (fun child =>
             let proto := componentPrototypes workspace !! child in
             {| inserted_name := child;
                inserted_label := Js.or_string (proto ≫= title) child;
                inserted_icon := proto ≫= icon;
                inserted_description := proto ≫= help |})
          names
  | None => []
  end.

Definition selectionHelpersAlign_of (designer : Designer)
    (data : ISelectedItemData) : SelectionHelperAlignType :=
  match bounding data with
  | Some b =>
      if Double.lt
           (Double.add
              (Double.add (Double.Finite (left b)) (Double.Finite (width b)))
              (Double.Finite boundingOffset))
           (Double.Finite (viewport_width (viewport designer)))
      then top_left          (* 选中模块已靠近右侧边界位置 *)
      else if lt_number (top b) 20
      then inner_top_right   (* 选中模块位于最顶部位置 *)
      else top_right
  | None => top_right
  end.

Definition isFromCurrentFile_of (workspace : Workspace)
    (data : ISelectedItemData) : bool :=
  Js.strict_eq (filename data) (activeViewFile workspace).

Definition style_of (isFromCurrentFile : bool) (data : ISelectedItemData)
    : option Css.Properties :=
  match bounding data with
  | Some b =>
      Some {| Css.display := "block";
              Css.width := width b;
              Css.height := height b;
              Css.transform := Css.translate_px (left b) (top b);
              Css.color_active :=
                if isFromCurrentFile then "var(--tango-colors-brand)"
                else "var(--tango-colors-gray-60)";
              Css.color_active_hover :=
                if isFromCurrentFile then "var(--tango-colors-primary-50)"
                else "var(--tango-colors-gray-50)" |}
  | None => None
  end.

Definition onDragStart (data : ISelectedItemData) : Eff unit :=
  call (dataTransfer_effectAllowed "move") ;;;
  call (dragSource_set data) ;;;
  ghost <- (call getDragGhostElement ;;; ret DragGhostElement) ;;
  call (dataTransfer_setDragImage ghost 0 0).

Definition onDragEnd : Eff unit :=
  call dragSource_clear.

Definition SelectionBox (workspace : Workspace) (designer : Designer)
    (props : SelectionBoxProps) : ReactNode :=
  let data := data props in
  match bounding data with
  | None => Empty
  | Some b =>
    if negb (Js.truthy_number (height b)) && negb (Js.truthy_number (width b))
    then Empty   (* 没有尺寸的元素不显示选中框 *)
    else
      let prototype := componentPrototypes workspace !! name data in
      let isPage := isPage_of prototype in
      let insertedList := insertedList_of workspace prototype in
      let selectionHelpersAlign := selectionHelpersAlign_of designer data in
      let isFromCurrentFile := isFromCurrentFile_of workspace data in
      let style := style_of isFromCurrentFile data in
      Element "Box"
        [("className", PStr "AuxSelectionBox");
         ("data-selection-id", PStr (id data));
         ("css", PStr "selectionBoxStyle");
         ("style", PStyle style)]
        [when (showActions props)
           (SelectionHelpers (Some selectionHelpersAlign)
              (Fragment
                 [SelectionHelper
                    (when (negb isPage)
                       (Element "HolderOutlined"
                          [("draggable", PBool true);
                           ("onDragStart", PHandler (onDragStart data));
                           ("onDragEnd", PHandler onDragEnd)]
                          []))
                    (Fragment
                       [NameSelector
                          (Some (Js.or_string (codeId data) (name data)))
                          (parents data)
                          (Some (fun item => call (selectSource_select item)));
                        when (negb isFromCurrentFile)
                          (Element "Action"
                             [("as", PStr "span"); ("color", PStr "white");
                              ("tooltip",
                               PStr ("该节点来自其他文件（"
                                     ++ default "undefined" (filename data)
                                     ++ "）"));
                              ("icon", PNode (Element "InfoCircleOutlined" [] []));
                              ("size", PStr "small")]
                             [])])
                    Empty [];
                  SelectionToolSet
                    (when (negb isPage)
                       (from_option Fragment Empty (actions props)));
                  when (0 <? length insertedList)%nat
                    (InsertedDropdown (Some insertedList)
                       (Some (fun name => call (insertToSelectedNode name)))
                       (SelectionHelper
                          (Element "PlusSquareOutlined" [] []) Empty Empty []))]))]
  end.

(** *** SelectionTools *)

(** An entry of the [actions] prop: the key of a built-in action, or an
    element. *)
Inductive ActionItem :=
| ActionKey (key : string)
| ActionElement (element : ReactNode).

Definition default_actions : list ActionItem :=
  [ActionKey "viewSource"; ActionKey "copyNode"; ActionKey "deleteNode"].

(** A [<SelectionBox key=... .../>] element, before it is rendered. *)
Record SelectionBoxElement := mkBoxElement {
  element_key : string;
  element_props : SelectionBoxProps
}.

(** [getWidget] is the widget registry of the designer: it gives the
    component registered under a key, if any. *)
Definition SelectionTools (getWidget : string -> option string)
    (workspace : Workspace) (actionsProp : option (list ActionItem))
    : list SelectionBoxElement :=
  let actionsProp := default default_actions actionsProp in
  let actions :=
    map (fun item =>
           match item with
           | ActionKey item =>
               match getWidget (String.concat "." ["selectionMenu"; item]) with
               | Some widget => Keyed item (Element widget [] [])
               | None => Empty
               end
           | ActionElement element => element
           end)
        actionsProp in
  map (fun item =>
         {| element_key := id item;
            element_props :=
              {| showActions := (length (selected workspace) =? 1)%nat;
                 actions := Some actions;
                 data := item |} |})
      (selected workspace).

(** What the overlay draws: each [SelectionBox] element rendered in turn. *)
Definition render (getWidget : string -> option string)
    (workspace : Workspace) (designer : Designer)
    (actionsProp : option (list ActionItem)) : ReactNode :=
  Fragment
    (map (fun e => Keyed (element_key e)
                     (SelectionBox workspace designer (element_props e)))
         (SelectionTools getWidget workspace actionsProp)).

(** ** The parts of a rendered selection box *)

(** The place of [showActions && <SelectionHelpers ...>]. *)
Definition toolbar_slot (box : ReactNode) : ReactNode := at_path [0] box.

Definition toolbar_shown (box : ReactNode) : bool :=
  is_element "Group" (toolbar_slot box).

(** The first [SelectionHelper], with the handle and the name. *)
Definition helper_slot (box : ReactNode) : ReactNode := at_path [0; 0; 0] box.

(** The place of [!isPage && <HolderOutlined ...>]. *)
Definition handle_slot (box : ReactNode) : ReactNode := at_path [0; 0; 0; 0] box.

Definition handle_shown (box : ReactNode) : bool :=
  is_element "HolderOutlined" (handle_slot box).

(** The [NameSelector]. *)
Definition name_slot (box : ReactNode) : ReactNode := at_path [0; 0; 0; 1; 0] box.

Definition name_shown (box : ReactNode) : bool :=
  is_element "NameSelectorWrapper" (name_slot box).

(** The entries of the list of ancestors of a [NameSelector]. *)
Definition breadcrumb_entries (selector : ReactNode) : list ReactNode :=
  children_of (at_path [1] selector).

(** The place of [!isFromCurrentFile && <Action ...>]. *)
Definition info_slot (box : ReactNode) : ReactNode := at_path [0; 0; 0; 1; 1] box.

Definition info_shown (box : ReactNode) : bool :=
  is_element "Action" (info_slot box).

(** The [SelectionToolSet] and the place of [!isPage && actions] in it. *)
Definition toolset_slot (box : ReactNode) : ReactNode := at_path [0; 0; 1] box.

Definition actions_slot (box : ReactNode) : ReactNode := at_path [0; 0; 1; 0] box.

(** The place of [insertedList.length > 0 && <InsertedDropdown ...>]. *)
Definition dropdown_slot (box : ReactNode) : ReactNode := at_path [0; 0; 2] box.

Definition dropdown_shown (box : ReactNode) : bool :=
  is_element "Dropdown" (dropdown_slot box).

(** The overlay [dropdownRender] gives, and its items. *)
Definition overlay_of (dropdown : ReactNode) : ReactNode :=
  match prop "dropdownRender" (props_of dropdown) with
  | Some (PNode overlay) => overlay
  | _ => Empty
  end.

Definition overlay_items (dropdown : ReactNode) : list ReactNode :=
  children_of (at_path [1] (overlay_of dropdown)).

(** The inline style of the box. *)
Definition style_prop (box : ReactNode) : option Css.Properties :=
  match prop "style" (props_of box) with
  | Some (PStyle style) => style
  | _ => None
  end.

Definition string_prop (key : string) (n : ReactNode) : option string :=
  match prop key (props_of n) with
  | Some (PStr s) => Some s
  | _ => None
  end.

(** ** The conditions of the specification *)

(** The box is drawn: the geometry is there and one of its two dimensions
    is not zero. *)
Definition has_size (data : ISelectedItemData) : bool :=
  match bounding data with
  | Some b => Js.truthy_number (height b) || Js.truthy_number (width b)
  | None => false
  end.

(** The three-branch rule for the anchor, in the words of the
    specification: offset 100, threshold 20, the sum being the sum of
    numbers of the host language. *)
Definition anchor_rule (left width top viewport_width : Q)
    : SelectionHelperAlignType :=
  let sum :=
    Double.add (Double.add (Double.Finite left) (Double.Finite width))
               (Double.Finite 100) in
  if Double.lt sum (Double.Finite viewport_width) then top_left
  else if Qlt_le_dec top 20 then inner_top_right
  else top_right.

(** ** Further observations on a tree *)

(** Nothing at all: what [null] renders. *)
Definition is_empty (n : ReactNode) : bool :=
  match n with
  | Empty => true
  | _ => false
  end.

(** The key an element was given. *)
Definition key_of (n : ReactNode) : option string :=
  match n with
  | Keyed key _ => Some key
  | _ => None
  end.

(** The handlers among the props of one element. *)
Definition own_handlers (props : Props) : list (Eff unit) :=
  omap (fun p => match p with
                 | (_, PHandler h) => Some h
                 | _ => None
                 end) props.

(** A call that asks the workspace to insert a child. *)
Definition is_insert_call (c : Call) : bool :=
  match c with
  | insertToSelectedNode _ => true
  | _ => false
  end.

(** ** Sample data *)

Module Samples.

Definition rect (l t w h : Q) : DOMRect := mkRect l t w h.

Definition page_proto : IComponentPrototype :=
  mkPrototype (Some "页面") None None "page" None.

Definition row_proto : IComponentPrototype :=
  mkPrototype (Some "Row") (Some "icon-row") (Some "a row") "element"
              (Some (OneName "Col")).

Definition col_proto : IComponentPrototype :=
  mkPrototype (Some "Column") (Some "icon-col") (Some "a column") "element" None.

Definition tabs_proto : IComponentPrototype :=
  mkPrototype None None None "element" (Some (ManyNames ["TabPane"; "Col"])).

Definition registry : gmap string IComponentPrototype :=
  <["Page" := page_proto]>
    (<["Row" := row_proto]>
       (<["Col" := col_proto]> (<["Tabs" := tabs_proto]> ∅))).

Definition root : ISelectedItemData :=
  mkItem "Page:1" "Page" None (Some "/src/index.js")
         (Some (rect 0 0 1200 800)) None.

Definition section : ISelectedItemData :=
  mkItem "Section:2" "Section" None (Some "/src/index.js")
         (Some (rect 0 40 1200 300)) None.

Definition row : ISelectedItemData :=
  mkItem "Row:3" "Row" (Some "row1") (Some "/src/index.js")
         (Some (rect 20 60 400 120)) (Some [section; root]).

Definition button : ISelectedItemData :=
  mkItem "Button:4" "Button" None (Some "/src/blocks/card.js")
         (Some (rect 1150 5 40 24)) (Some [row; section; root]).

Definition flat : ISelectedItemData :=
  mkItem "Divider:5" "Divider" None (Some "/src/index.js")
         (Some (rect 20 200 0 0)) None.

Definition line : ISelectedItemData :=
  mkItem "Divider:6" "Divider" None (Some "/src/index.js")
         (Some (rect 20 200 0 16)) None.


Definition workspace (sel : list ISelectedItemData) : Workspace :=
  mkWorkspace registry (Some "/src/index.js") sel.

Definition inner_page : ISelectedItemData :=
  mkItem "Page:8" "Page" None (Some "/src/index.js")
         (Some (rect 0 0 600 400)) (Some [section; root]).

Definition designer : Designer := mkDesigner (mkViewport 1200 800).

Definition getWidget (key : string) : option string :=
  if String.eqb key "selectionMenu.viewSource" then Some "ViewSourceAction"
  else if String.eqb key "selectionMenu.copyNode" then Some "CopyNodeAction"
  else None.

Definition the_actions : list ReactNode :=
  [Keyed "viewSource" (Element "ViewSourceAction" [] []);
   Keyed "copyNode" (Element "CopyNodeAction" [] []);
   Empty].

Definition props_for (sel : list ISelectedItemData) (item : ISelectedItemData)
    : SelectionBoxProps :=
  mkBoxProps (length sel =? 1)%nat (Some the_actions) item.

End Samples.

(** ** Facts about the host-language operations *)

Lemma truthy_number_false (x : Q) : Js.truthy_number x = false <-> (x == 0)%Q.
Proof.
  unfold Js.truthy_number. rewrite negb_false_iff. apply Qeq_bool_iff.
Qed.

Lemma truthy_number_true (x : Q) : Js.truthy_number x = true <-> ~ (x == 0)%Q.
Proof.
  rewrite <- truthy_number_false. destruct (Js.truthy_number x); split; congruence.
Qed.

Lemma lt_number_true (x y : Q) : lt_number x y = true <-> (x < y)%Q.
Proof.
  unfold lt_number. rewrite Qlt_alt.
  destruct (x ?= y)%Q; split; congruence.
Qed.

Lemma lt_number_false (x y : Q) : lt_number x y = false <-> ~ (x < y)%Q.
Proof.
  rewrite <- lt_number_true. destruct (lt_number x y); split; congruence.
Qed.

Lemma strict_eq_true (a b : option string) : Js.strict_eq a b = true <-> a = b.
Proof. unfold Js.strict_eq. apply bool_decide_eq_true. Qed.

Lemma mapi_from_lookup {A B} (f : A -> nat -> B) (xs : list A) (start i : nat) :
  Js.mapi_from start f xs !! i = (fun x => f x (start + i)%nat) <$> xs !! i.
Proof.
  revert start i. induction xs as [|x rest IH]; intros start i; simpl.
  - reflexivity.
  - destruct i as [|i]; simpl.
    + by rewrite Nat.add_0_r.
    + rewrite IH. by rewrite Nat.add_succ_r.
Qed.

Lemma mapi_lookup {A B} (f : A -> nat -> B) (xs : list A) (i : nat) :
  Js.mapi f xs !! i = (fun x => f x i) <$> xs !! i.
Proof. unfold Js.mapi. by rewrite mapi_from_lookup. Qed.

Lemma mapi_from_length {A B} (f : A -> nat -> B) (xs : list A) (start : nat) :
  length (Js.mapi_from start f xs) = length xs.
Proof.
  revert start. induction xs as [|x rest IH]; intros start; simpl; [done|].
  by rewrite IH.
Qed.

(** ** The two guards of SelectionBox *)

Lemma SelectionBox_without_size ws d props :
  has_size (data props) = false -> SelectionBox ws d props = Empty.
Proof.
  unfold has_size, SelectionBox. destruct (bounding (data props)) as [b|]; [|done].
  destruct (Js.truthy_number (height b)), (Js.truthy_number (width b)); simpl;
    congruence.
Qed.

(** What a box that is drawn looks like: the outline, and the place of the
    toolbar. *)
Lemma SelectionBox_with_size ws d props :
  has_size (data props) = true ->
  exists toolbar,
    SelectionBox ws d props =
      Element "Box"
        [("className", PStr "AuxSelectionBox");
         ("data-selection-id", PStr (id (data props)));
         ("css", PStr "selectionBoxStyle");
         ("style",
          PStyle (style_of (isFromCurrentFile_of ws (data props)) (data props)))]
        [when (showActions props) toolbar]
    /\ is_element "Group" toolbar = true.
Proof.
  unfold has_size, SelectionBox. destruct (bounding (data props)) as [b|]; [|done].
  intros Hsize.
  destruct (Js.truthy_number (height b)), (Js.truthy_number (width b));
    simpl in *; try discriminate; eexists; split; reflexivity.
Qed.

Lemma SelectionBox_Empty_iff ws d props :
  SelectionBox ws d props = Empty <-> has_size (data props) = false.
Proof.
  split; [|apply SelectionBox_without_size].
  destruct (has_size (data props)) eqn:Hsize; [|done].
  destruct (SelectionBox_with_size ws d props Hsize) as (tb & -> & _). discriminate.
Qed.

Lemma toolbar_shown_iff ws d props :
  toolbar_shown (SelectionBox ws d props) = true <->
  has_size (data props) = true /\ showActions props = true.
Proof.
  destruct (has_size (data props)) eqn:Hsize.
  - destruct (SelectionBox_with_size ws d props Hsize) as (tb & -> & Htb).
    unfold toolbar_shown, toolbar_slot. simpl.
    destruct (showActions props); simpl; [rewrite Htb|]; split; try tauto;
      intros; try discriminate; intuition discriminate.
  - rewrite (SelectionBox_without_size ws d props Hsize).
    split; [discriminate | intros []; discriminate].
Qed.

Lemma has_size_iff (item : ISelectedItemData) :
  has_size item = true <->
  exists b, bounding item = Some b
            /\ (~ (height b == 0)%Q \/ ~ (width b == 0)%Q).
Proof.
  unfold has_size. destruct (bounding item) as [b|].
  - rewrite orb_true_iff, !truthy_number_true. split.
    + intros H. by exists b.
    + by intros (b' & [= <-] & H).
  - split; [discriminate | by intros (b & [=] & _)].
Qed.

(** ** The parts of the toolbar *)

Lemma handler_without_handlers event n :
  Forall (fun p => is_handler (snd p) = false) (props_of n) ->
  handler event n = None.
Proof.
  unfold handler. induction 1 as [|[k v] rest Hv _ IH]; simpl; [done|].
  destruct (String.eqb k event); [|exact IH].
  by destruct v.
Qed.

(** Opens [SelectionBox] on an item that is drawn. *)
Ltac open_box :=
  unfold has_size, SelectionBox;
  match goal with
  | |- context [bounding ?d] => destruct (bounding d) as [?b|]; [|discriminate]
  end;
  let Hsize := fresh "Hsize" in
  intros Hsize;
  match goal with
  | |- context [Js.truthy_number (height ?b)] =>
      destruct (Js.truthy_number (height b)), (Js.truthy_number (width b));
      simpl in Hsize; try discriminate Hsize; clear Hsize
  end.

Section Toolbar.

Context (ws : Workspace) (d : Designer) (props : SelectionBoxProps).

Let item := data props.
Let prototype := componentPrototypes ws !! name item.
Let box := SelectionBox ws d props.

Hypothesis Hsize : has_size item = true.
Hypothesis Hshow : showActions props = true.

(** Each part is read off the tree of a box that is drawn with its
    toolbar. *)
Local Ltac read_slot :=
  subst box prototype item; revert Hsize; open_box; rewrite Hshow;
  try reflexivity.

Lemma toolbar_align :
  string_prop "data-align" (toolbar_slot box)
  = Some (align_name (selectionHelpersAlign_of d item)).
Proof.
  read_slot.
Qed.

Lemma handle_slot_eq :
  handle_slot box
  = when (negb (isPage_of prototype))
      (Element "HolderOutlined"
         [("draggable", PBool true);
          ("onDragStart", PHandler (onDragStart item));
          ("onDragEnd", PHandler onDragEnd)]
         []).
Proof.
  read_slot.
Qed.

Lemma name_slot_eq :
  name_slot box
  = NameSelector (Some (Js.or_string (codeId item) (name item))) (parents item)
      (Some (fun item => call (selectSource_select item))).
Proof.
  read_slot.
Qed.

Lemma info_slot_shown :
  info_shown box = negb (isFromCurrentFile_of ws item).
Proof.
  unfold info_shown. read_slot; simpl;
    destruct (isFromCurrentFile_of ws (data props)); reflexivity.
Qed.

Lemma toolset_slot_shown :
  string_prop "className" (toolset_slot box) = Some "SelectionToolSet".
Proof.
  read_slot.
Qed.

Lemma actions_slot_eq :
  actions_slot box
  = when (negb (isPage_of prototype))
      (from_option Fragment Empty (actions props)).
Proof.
  read_slot.
Qed.

Lemma dropdown_slot_eq :
  dropdown_slot box
  = when (0 <? length (insertedList_of ws prototype))%nat
      (InsertedDropdown (Some (insertedList_of ws prototype))
         (Some (fun name => call (insertToSelectedNode name)))
         (SelectionHelper (Element "PlusSquareOutlined" [] []) Empty Empty [])).
Proof.
  read_slot.
Qed.

(** Nothing above the handle listens to an event. *)
Lemma above_handle_no_handler event :
  Forall (fun path => handler event (at_path path box) = None)
         [[]; [0]; [0; 0]; [0; 0; 0]]%nat.
Proof.
  read_slot; repeat constructor; apply handler_without_handlers; simpl;
    repeat constructor.
Qed.

End Toolbar.

(** ** The early returns *)

(** C1. For every selected item, SelectionBox renders nothing when the
    item's bounding geometry is absent, or when both the bounding width and
    the bounding height are zero; no highlight box is rendered for an item
    with width = 0 and height = 0. *)
Theorem C1_nothing_without_geometry_or_size ws d props :
  bounding (data props) = None \/
  (exists b, bounding (data props) = Some b
             /\ (width b == 0)%Q /\ (height b == 0)%Q) ->
  SelectionBox ws d props = Empty.
Proof.
  intros Hcase. apply SelectionBox_without_size. unfold has_size.
  destruct Hcase as [-> | (b & -> & Hw & Hh)]; [done|].
  apply truthy_number_false in Hw, Hh. by rewrite Hw, Hh.
Qed.

Lemma C1_witness_zero_size :
  (exists b, bounding Samples.flat = Some b
             /\ (width b == 0)%Q /\ (height b == 0)%Q)
  /\ SelectionBox (Samples.workspace [Samples.flat]) Samples.designer
       (Samples.props_for [Samples.flat] Samples.flat) = Empty.
Proof.
  assert (H : exists b, bounding Samples.flat = Some b
                        /\ (width b == 0)%Q /\ (height b == 0)%Q).
  { exists (Samples.rect 20 200 0 0). repeat split; reflexivity. }
  split; [exact H|].
  apply (C1_nothing_without_geometry_or_size
           (Samples.workspace [Samples.flat]) Samples.designer
           (Samples.props_for [Samples.flat] Samples.flat)).
  right. exact H.
Defined.

(** C9. The zero-size guard requires both dimensions to be zero: for every
    item with bounding geometry where exactly one of width and height is
    nonzero, the highlight box is rendered, and its inline style takes both
    dimensions, the zero one included, as they are. *)
Theorem C9_box_with_one_zero_dimension ws d props b :
  bounding (data props) = Some b ->
  ((width b == 0)%Q /\ ~ (height b == 0)%Q) \/
  (~ (width b == 0)%Q /\ (height b == 0)%Q) ->
  let box := SelectionBox ws d props in
  is_element "Box" box = true
  /\ string_prop "className" box = Some "AuxSelectionBox"
  /\ string_prop "data-selection-id" box = Some (id (data props))
  /\ exists style,
       style_prop box = Some style
       /\ Css.display style = "block"
       /\ Css.width style = width b
       /\ Css.height style = height b.
Proof.
  intros Hb Hone box.
  assert (Hsize : has_size (data props) = true).
  { unfold has_size. rewrite Hb. apply orb_true_iff.
    destruct Hone as [[_ Hh] | [Hw _]]; [left | right];
      by apply truthy_number_true. }
  destruct (SelectionBox_with_size ws d props Hsize) as (tb & Hbox & _).
  subst box. rewrite Hbox. unfold style_prop, style_of, string_prop. simpl.
  rewrite Hb. repeat split. eexists. repeat split.
Qed.

Lemma C9_witness_zero_width :
  let box := SelectionBox (Samples.workspace [Samples.line]) Samples.designer
               (Samples.props_for [Samples.line] Samples.line) in
  is_element "Box" box = true
  /\ string_prop "className" box = Some "AuxSelectionBox"
  /\ string_prop "data-selection-id" box = Some "Divider:6"
  /\ exists style,
       style_prop box = Some style
       /\ Css.display style = "block"
       /\ Css.width style = 0%Q
       /\ Css.height style = 16%Q.
Proof.
  apply (C9_box_with_one_zero_dimension
           (Samples.workspace [Samples.line]) Samples.designer
           (Samples.props_for [Samples.line] Samples.line)
           (Samples.rect 20 200 0 16)).
  - reflexivity.
  - left. split; [reflexivity | discriminate].
Defined.

(** ** The anchor of the toolbar *)

(** The addition of [Double] is the addition of the machine on sums that
    are exact, that round, that meet a tie, that overflow and that are
    subnormal. *)
Lemma add_agrees_with_machine_on_samples :
  forallb (fun p => Double.agrees_with_machine (fst p) (snd p))
    [(0.1, 999.9); (1000, 100); (0.1, 0.2); (0.3, -0.1);
     (33.328125, 1199.671875); (4.35, 100); (123456.789, 0.000001);
     (1e16, 1); (9007199254740992, 1); (9007199254740992, 3);
     (-2.5, 1e-30); (1.5, -1.5); (5e-324, 5e-324); (1e-320, -3e-321);
     (1e308, 1e308); (-1e308, -1e308);
     (0x1.fffffffffffffp+1023, 0x1.fffffffffffa7p+969);
     (0x1.fffffffffffffp+1023, 0x1p+970)]%float
  = true.
Proof. vm_compute. reflexivity. Qed.

(** C2. For every selected item with bounding geometry, the anchor of the
    toolbar is the three-branch rule applied to left, width, top and the
    viewport width, with offset 100 and threshold 20: top-left when
    left + width + 100 < viewport width, else inner-top-right when
    top < 20, else top-right, the sum being the sum of the numbers of the
    host language; the toolbar of a box that is drawn with its actions
    carries that anchor in data-align. *)
Theorem C2_anchor_three_branch_rule ws d props b :
  bounding (data props) = Some b ->
  let anchor :=
    anchor_rule (left b) (width b) (top b) (viewport_width (viewport d)) in
  selectionHelpersAlign_of d (data props) = anchor
  /\ (showActions props = true ->
      ~ (height b == 0)%Q \/ ~ (width b == 0)%Q ->
      string_prop "data-align" (toolbar_slot (SelectionBox ws d props))
      = Some (align_name anchor)).
Proof.
  intros Hb anchor.
  assert (Heq : selectionHelpersAlign_of d (data props) = anchor).
  { subst anchor. unfold selectionHelpersAlign_of, anchor_rule, boundingOffset.
    rewrite Hb.
    destruct (Double.lt _ _); [reflexivity|].
    destruct (Qlt_le_dec (top b) 20) as [Htop | Htop].
    - apply lt_number_true in Htop. by rewrite Htop.
    - apply Qle_not_lt, lt_number_false in Htop. by rewrite Htop. }
  split; [exact Heq|].
  intros Hshow Hsize. rewrite <- Heq. apply toolbar_align; [|exact Hshow].
  apply has_size_iff. by exists b.
Qed.

Lemma C2_witness_inner_top_right :
  bounding Samples.button = Some (Samples.rect 1150 5 40 24)
  /\ selectionHelpersAlign_of Samples.designer Samples.button = inner_top_right
  /\ string_prop "data-align"
       (toolbar_slot
          (SelectionBox (Samples.workspace [Samples.button]) Samples.designer
             (Samples.props_for [Samples.button] Samples.button)))
     = Some "inner-top-right".
Proof.
  destruct (C2_anchor_three_branch_rule
              (Samples.workspace [Samples.button]) Samples.designer
              (Samples.props_for [Samples.button] Samples.button)
              (Samples.rect 1150 5 40 24) eq_refl)
    as [Hanchor Halign].
  split; [reflexivity|]. split; [exact Hanchor|].
  apply Halign; [reflexivity|]. left. discriminate.
Defined.

(** The sum is the rounded one: with left 0.1, width 999.9 and a viewport
    of 1100 the exact sum is below 1100, the sum of the numbers is 1100,
    and the anchor is not top-left. *)
Lemma anchor_follows_the_rounded_sum :
  let l := 3602879701896397 # 36028797018963968 in
  let w := 8795213412905779 # 8796093022208 in
  Double.of_float 0.1 = Double.Finite l
  /\ Double.of_float 999.9 = Double.Finite w
  /\ (l + w + 100 < 1100)%Q
  /\ Double.add (Double.add (Double.Finite l) (Double.Finite w))
                (Double.Finite 100) = Double.Finite 1100
  /\ anchor_rule l w 300 1100 = top_right
  /\ anchor_rule l w 5 1100 = inner_top_right.
Proof. vm_compute. repeat split. Qed.

(** ** What stays hidden with the toolbar *)

Lemma hidden_below_toolbar ws d props path :
  toolbar_shown (SelectionBox ws d props) = false ->
  at_path (0 :: 0 :: path)%nat (SelectionBox ws d props) = Empty.
Proof.
  intros Hhidden.
  destruct (has_size (data props)) eqn:Hsize.
  - destruct (showActions props) eqn:Hshow.
    + assert (toolbar_shown (SelectionBox ws d props) = true)
        by (by apply toolbar_shown_iff).
      congruence.
    + destruct (SelectionBox_with_size ws d props Hsize) as (tb & -> & _).
      by rewrite Hshow.
  - by rewrite (SelectionBox_without_size ws d props Hsize).
Qed.

Lemma shown_inside_toolbar ws d props path component :
  is_element component (at_path (0 :: 0 :: path)%nat (SelectionBox ws d props))
  = true ->
  has_size (data props) = true /\ showActions props = true.
Proof.
  intros Hshown. apply (proj1 (toolbar_shown_iff ws d props)).
  destruct (toolbar_shown (SelectionBox ws d props)) eqn:Htb; [done|].
  by rewrite (hidden_below_toolbar ws d props path Htb) in Hshown.
Qed.

(** ** The breadcrumb *)

(** Each ancestor gets one entry, whose click hands the callback the
    ancestor with the ancestors after it. *)
Lemma NameSelector_entry label ps onSelect (i : nat) p :
  ps !! i = Some p ->
  handler "onClick" <$>
    breadcrumb_entries (NameSelector label (Some ps) (Some onSelect)) !! i
  = Some (Some (onSelect (with_parents p (Js.slice (i + 1) ps)))).
Proof.
  intros Hp. unfold breadcrumb_entries, NameSelector. simpl.
  rewrite mapi_lookup, Hp. reflexivity.
Qed.

Lemma NameSelector_entries_length label ps onSelect :
  length (breadcrumb_entries (NameSelector label ps onSelect))
  = length (default [] ps).
Proof.
  unfold breadcrumb_entries, NameSelector, Js.mapi. simpl.
  apply mapi_from_length.
Qed.

(** C4. For every ancestor list and every index i in it, the click on the
    breadcrumb entry of the ancestor at index i calls the selection
    callback with the data of that ancestor, its parents field being the
    ancestors strictly after index i; in the selection box the callback
    forwards that item to workspace.selectSource.select. *)
Theorem C4_breadcrumb_click_reselects ws d props ps (i : nat) p :
  ps !! i = Some p ->
  let target :=
    {| id := id p; name := name p; codeId := codeId p;
       filename := filename p; bounding := bounding p;
       parents := Some (drop (S i) ps) |} in
  (forall label onSelect,
     handler "onClick" <$>
       breadcrumb_entries (NameSelector label (Some ps) (Some onSelect)) !! i
     = Some (Some (onSelect target)))
  /\ (parents (data props) = Some ps ->
      toolbar_shown (SelectionBox ws d props) = true ->
      exists entry click,
        breadcrumb_entries (name_slot (SelectionBox ws d props)) !! i
        = Some entry
        /\ handler "onClick" entry = Some click
        /\ trace click = [selectSource_select target]).
Proof.
  intros Hp target.
  assert (Htarget : with_parents p (Js.slice (i + 1) ps) = target).
  { subst target. unfold with_parents, Js.slice. by rewrite Nat.add_1_r. }
  split.
  - intros label onSelect. rewrite <- Htarget. by apply NameSelector_entry.
  - intros Hps [Hsize Hshow]%toolbar_shown_iff.
    rewrite (name_slot_eq ws d props Hsize Hshow), Hps.
    pose proof (NameSelector_entry
                  (Some (Js.or_string (codeId (data props)) (name (data props))))
                  ps (fun item => call (selectSource_select item)) i p Hp)
      as Hentry.
    destruct (breadcrumb_entries _ !! i) as [entry|] eqn:Hlookup;
      [|discriminate].
    injection Hentry as Hclick. rewrite Htarget in Hclick.
    exists entry, (call (selectSource_select target)). by repeat split.
Qed.

Lemma C4_witness_second_ancestor :
  Samples.button.(parents) = Some [Samples.row; Samples.section; Samples.root]
  /\ [Samples.row; Samples.section; Samples.root] !! 1%nat = Some Samples.section
  /\ exists entry click,
       breadcrumb_entries
         (name_slot
            (SelectionBox (Samples.workspace [Samples.button]) Samples.designer
               (Samples.props_for [Samples.button] Samples.button))) !! 1%nat
       = Some entry
       /\ handler "onClick" entry = Some click
       /\ trace click
          = [selectSource_select
               {| id := "Section:2"; name := "Section"; codeId := None;
                  filename := Some "/src/index.js";
                  bounding := Some (Samples.rect 0 40 1200 300);
                  parents := Some [Samples.root] |}].
Proof.
  split; [reflexivity|]. split; [reflexivity|].
  exact (proj2
           (C4_breadcrumb_click_reselects
              (Samples.workspace [Samples.button]) Samples.designer
              (Samples.props_for [Samples.button] Samples.button)
              [Samples.row; Samples.section; Samples.root] 1%nat
              Samples.section eq_refl)
           eq_refl eq_refl).
Defined.

(** ** The drag handle *)

(** C8. On drag-start of the handle the handler sets the drag source of the
    workspace to the data of the selected item and sets the drag image of
    the event to the drag-ghost element; on drag-end it clears the drag
    source; these are the only calls on the workspace the two events
    make. *)
Theorem C8_drag_handle_events ws d props :
  handle_shown (SelectionBox ws d props) = true ->
  exists start stop,
    handler "onDragStart" (handle_slot (SelectionBox ws d props)) = Some start
    /\ handler "onDragEnd" (handle_slot (SelectionBox ws d props)) = Some stop
    /\ trace start
       = [dataTransfer_effectAllowed "move";
          dragSource_set (data props);
          getDragGhostElement;
          dataTransfer_setDragImage DragGhostElement 0 0]
    /\ filter (fun c => is_workspace_call c = true) (trace start)
       = [dragSource_set (data props)]
    /\ trace stop = [dragSource_clear]
    /\ filter (fun c => is_workspace_call c = true) (trace stop)
       = [dragSource_clear]
    /\ Forall (fun path =>
                 handler "onDragStart" (at_path path (SelectionBox ws d props))
                 = None
                 /\ handler "onDragEnd" (at_path path (SelectionBox ws d props))
                    = None)
              [[]; [0]; [0; 0]; [0; 0; 0]]%nat.
Proof.
  intros Hshown.
  destruct (shown_inside_toolbar ws d props [0; 0]%nat _ Hshown) as [Hsize Hshow].
  pose proof (above_handle_no_handler ws d props Hsize Hshow "onDragStart")
    as Hstart.
  pose proof (above_handle_no_handler ws d props Hsize Hshow "onDragEnd")
    as Hstop.
  unfold handle_shown in Hshown. revert Hshown.
  rewrite (handle_slot_eq ws d props Hsize Hshow).
  destruct (isPage_of _); simpl; [discriminate|]. intros _.
  exists (onDragStart (data props)), onDragEnd.
  repeat split; try reflexivity.
  rewrite Forall_forall in Hstart, Hstop. apply Forall_forall.
  intros path Hpath. split; [by apply Hstart | by apply Hstop].
Qed.

Lemma C8_witness_row_handle :
  let box := SelectionBox (Samples.workspace [Samples.row]) Samples.designer
               (Samples.props_for [Samples.row] Samples.row) in
  handle_shown box = true
  /\ exists start stop,
       handler "onDragStart" (handle_slot box) = Some start
       /\ handler "onDragEnd" (handle_slot box) = Some stop
       /\ trace start
          = [dataTransfer_effectAllowed "move";
             dragSource_set Samples.row;
             getDragGhostElement;
             dataTransfer_setDragImage DragGhostElement 0 0]
       /\ filter (fun c => is_workspace_call c = true) (trace start)
          = [dragSource_set Samples.row]
       /\ trace stop = [dragSource_clear]
       /\ filter (fun c => is_workspace_call c = true) (trace stop)
          = [dragSource_clear]
       /\ Forall (fun path =>
                    handler "onDragStart" (at_path path box) = None
                    /\ handler "onDragEnd" (at_path path box) = None)
                 [[]; [0]; [0; 0]; [0; 0; 0]]%nat.
Proof.
  split; [reflexivity|].
  exact (C8_drag_handle_events
           (Samples.workspace [Samples.row]) Samples.designer
           (Samples.props_for [Samples.row] Samples.row) eq_refl).
Defined.

(** ** The parts the toolbar always has, and those it has for no page *)

Lemma isPage_of_true (prototype : option IComponentPrototype) :
  isPage_of prototype = true <-> type <$> prototype = Some "page".
Proof.
  destruct prototype as [p|]; simpl; [|split; discriminate].
  rewrite String.eqb_eq. split; [by intros -> | by intros [= ->]].
Qed.

(** C5, as amended. When the toolbar is shown it always renders the name
    breadcrumb and the tool set; it renders the drag handle and the
    pluggable action elements exactly when the type of the prototype of
    the item is not 'page'; an item of type 'page' never shows the drag
    handle. *)
Theorem C5_toolbar_parts ws d props :
  toolbar_shown (SelectionBox ws d props) = true ->
  let box := SelectionBox ws d props in
  let page := type <$> componentPrototypes ws !! name (data props) = Some "page" in
  name_shown box = true
  /\ string_prop "className" (toolset_slot box) = Some "SelectionToolSet"
  /\ (handle_shown box = true <-> ~ page)
  /\ (~ page -> actions_slot box = from_option Fragment Empty (actions props))
  /\ (page -> handle_slot box = Empty /\ actions_slot box = Empty).
Proof.
  intros [Hsize Hshow]%toolbar_shown_iff box page. subst box page.
  rewrite <- isPage_of_true.
  unfold name_shown, handle_shown.
  rewrite (name_slot_eq ws d props Hsize Hshow),
          (toolset_slot_shown ws d props Hsize Hshow),
          (handle_slot_eq ws d props Hsize Hshow),
          (actions_slot_eq ws d props Hsize Hshow).
  destruct (isPage_of _); simpl; repeat split; try congruence; try tauto.
Qed.

Lemma C5_witness_row_toolbar :
  let box := SelectionBox (Samples.workspace [Samples.row]) Samples.designer
               (Samples.props_for [Samples.row] Samples.row) in
  toolbar_shown box = true
  /\ name_shown box = true
  /\ handle_shown box = true
  /\ actions_slot box = Fragment Samples.the_actions.
Proof.
  pose proof (C5_toolbar_parts
                (Samples.workspace [Samples.row]) Samples.designer
                (Samples.props_for [Samples.row] Samples.row) eq_refl)
    as (Hname & _ & Hhandle & Hactions & _).
  split; [reflexivity|]. split; [exact Hname|].
  split; [apply Hhandle; discriminate | apply Hactions; discriminate].
Defined.

(** The claim as first stated fails on a page: the toolbar is shown with
    the name breadcrumb, and the action elements handed to the box are
    not rendered. *)
Lemma C5_counterexample_page_without_actions :
  let box := SelectionBox (Samples.workspace [Samples.root]) Samples.designer
               (Samples.props_for [Samples.root] Samples.root) in
  type <$> Samples.registry !! name Samples.root = Some "page"
  /\ actions (Samples.props_for [Samples.root] Samples.root)
     = Some Samples.the_actions
  /\ toolbar_shown box = true
  /\ name_shown box = true
  /\ children_of (toolset_slot box) = [Empty]
  /\ existsb (is_element "ViewSourceAction") (subnodes box) = false
  /\ existsb (is_element "CopyNodeAction") (subnodes box) = false.
Proof. repeat split. Qed.

(** ** The insertable children *)

(** The entry built for a declared child name. *)
Lemma insertedList_of_names ws prototype names :
  declared_children (Some prototype) = Some (ManyNames names) ->
  insertedList_of ws (Some prototype)
  = map (fun child =>
           let proto := componentPrototypes ws !! child in
           {| inserted_name := child;
              inserted_label := Js.or_string (proto ≫= title) child;
              inserted_icon := proto ≫= icon;
              inserted_description := proto ≫= help |})
        names.
Proof. unfold insertedList_of. by intros ->. Qed.

Lemma insertedList_of_one_name ws prototype child :
  childrenName prototype = Some (OneName child) ->
  child <> "" ->
  insertedList_of ws (Some prototype)
  = [let proto := componentPrototypes ws !! child in
     {| inserted_name := child;
        inserted_label := Js.or_string (proto ≫= title) child;
        inserted_icon := proto ≫= icon;
        inserted_description := proto ≫= help |}].
Proof.
  intros Hone Hchild. unfold insertedList_of, declared_children. simpl.
  rewrite Hone. by destruct child.
Qed.

(** The label falls back to the name of the child. *)
Lemma inserted_label_fallback (proto : option IComponentPrototype) child :
  proto = None \/ proto ≫= title = None ->
  Js.or_string (proto ≫= title) child = child.
Proof. by intros [-> | ->]. Qed.

(** [InsertedItem] does not look at the click handler it is given. *)
Lemma InsertedItem_ignores_onClick label icon description click :
  InsertedItem (mkItemProps label icon description click)
  = InsertedItem (mkItemProps label icon description None).
Proof. reflexivity. Qed.

Lemma InsertedItem_no_handler props :
  all_handlers (InsertedItem props) = [].
Proof.
  unfold all_handlers, InsertedItem. simpl.
  destruct (String.prefix _ _), (item_description props); reflexivity.
Qed.

(** Whatever the options and the callback, the overlay of the dropdown
    installs no handler at all. *)
Lemma overlay_no_handler options onSelect children :
  all_handlers (overlay_of (InsertedDropdown options onSelect children)) = [].
Proof.
  unfold overlay_of, InsertedDropdown. simpl.
  unfold all_handlers. simpl. rewrite app_nil_r.
  induction (default [] options) as [|item rest IH]; [reflexivity|].
  simpl. rewrite flat_map_app, IH, app_nil_r.
  destruct (String.prefix _ _), (inserted_description item); reflexivity.
Qed.

(** C6, at the failing input. The Row of the samples declares the child
    "Col": its box builds the one entry, resolved from the prototype of
    "Col", and shows the dropdown with one item; the click handler that
    would call workspace.insertToSelectedNode is handed to InsertedItem,
    which drops it, so no handler of the overlay, and no handler of the
    whole box, makes that call. *)
Theorem C6_insert_click_is_dropped :
  let ws := Samples.workspace [Samples.row] in
  let box := SelectionBox ws Samples.designer
               (Samples.props_for [Samples.row] Samples.row) in
  insertedList_of ws (componentPrototypes ws !! "Row")
  = [{| inserted_name := "Col"; inserted_label := "Column";
        inserted_icon := Some "icon-col";
        inserted_description := Some "a column" |}]
  /\ dropdown_shown box = true
  /\ length (overlay_items (dropdown_slot box)) = 1%nat
  /\ all_handlers (overlay_of (dropdown_slot box)) = []
  /\ existsb (fun c => match c with
                       | insertToSelectedNode _ => true
                       | _ => false
                       end) (reachable_calls box) = false.
Proof. repeat split. Qed.

(** In every box the overlay of the insert dropdown is without handlers. *)
Lemma dropdown_overlay_no_handler ws d props :
  all_handlers (overlay_of (dropdown_slot (SelectionBox ws d props))) = [].
Proof.
  destruct (toolbar_shown (SelectionBox ws d props)) eqn:Htb.
  - apply toolbar_shown_iff in Htb as [Hsize Hshow].
    rewrite (dropdown_slot_eq ws d props Hsize Hshow).
    destruct (0 <? _)%nat; [apply overlay_no_handler | reflexivity].
  - unfold dropdown_slot. by rewrite (hidden_below_toolbar ws d props [2%nat] Htb).
Qed.

(** The dropdown is there exactly for a toolbar with insertable children. *)
Lemma dropdown_shown_iff ws d props :
  dropdown_shown (SelectionBox ws d props) = true <->
  toolbar_shown (SelectionBox ws d props) = true
  /\ insertedList_of ws (componentPrototypes ws !! name (data props)) <> [].
Proof.
  unfold dropdown_shown. split.
  - intros Hshown.
    destruct (shown_inside_toolbar ws d props [2%nat] _ Hshown) as [Hsize Hshow].
    split; [by apply toolbar_shown_iff|].
    revert Hshown. unfold dropdown_slot.
    fold (dropdown_slot (SelectionBox ws d props)).
    rewrite (dropdown_slot_eq ws d props Hsize Hshow).
    by destruct (insertedList_of _ _).
  - intros [[Hsize Hshow]%toolbar_shown_iff Hlist].
    rewrite (dropdown_slot_eq ws d props Hsize Hshow).
    by destruct (insertedList_of _ _).
Qed.

(** ** One box per selected item *)




(** ** The file the item comes from *)

(** C7. For every selected item the flag "is from the currently active
    file" is the equality of the filename of the item with the active view
    file of the workspace; in the box of the item the flag alone chooses
    between the brand and primary colours and the gray colours, and the
    note "from another file" is rendered exactly when the toolbar is and
    the flag is off. *)
Theorem C7_current_file_flag ws d props b :
  bounding (data props) = Some b ->
  ~ (height b == 0)%Q \/ ~ (width b == 0)%Q ->
  let flag := isFromCurrentFile_of ws (data props) in
  let box := SelectionBox ws d props in
  (flag = true <-> filename (data props) = activeViewFile ws)
  /\ (exists style,
        style_prop box = Some style
        /\ Css.color_active style
           = (if flag then "var(--tango-colors-brand)"
              else "var(--tango-colors-gray-60)")
        /\ Css.color_active_hover style
           = (if flag then "var(--tango-colors-primary-50)"
              else "var(--tango-colors-gray-50)"))
  /\ info_shown box = showActions props && negb flag.
Proof.
  intros Hb Hdim flag box. subst flag box.
  assert (Hsize : has_size (data props) = true)
    by (apply has_size_iff; by exists b).
  split; [apply strict_eq_true|]. split.
  - destruct (SelectionBox_with_size ws d props Hsize) as (tb & -> & _).
    unfold style_prop, style_of. simpl. rewrite Hb. eexists. repeat split.
  - destruct (showActions props) eqn:Hshow.
    + by apply info_slot_shown.
    + unfold info_shown, info_slot.
      rewrite (hidden_below_toolbar ws d props [0; 1; 1]%nat); [reflexivity|].
      destruct (toolbar_shown _) eqn:Htb; [|reflexivity].
      apply toolbar_shown_iff in Htb as [_ Htb]. congruence.
Qed.

Lemma C7_witness_both_files :
  let other := SelectionBox (Samples.workspace [Samples.button])
                 Samples.designer
                 (Samples.props_for [Samples.button] Samples.button) in
  let current := SelectionBox (Samples.workspace [Samples.row])
                   Samples.designer
                   (Samples.props_for [Samples.row] Samples.row) in
  (exists style,
     style_prop other = Some style
     /\ Css.color_active style = "var(--tango-colors-gray-60)"
     /\ Css.color_active_hover style = "var(--tango-colors-gray-50)")
  /\ info_shown other = true
  /\ (exists style,
        style_prop current = Some style
        /\ Css.color_active style = "var(--tango-colors-brand)"
        /\ Css.color_active_hover style = "var(--tango-colors-primary-50)")
  /\ info_shown current = false.
Proof.
  destruct (C7_current_file_flag
              (Samples.workspace [Samples.button]) Samples.designer
              (Samples.props_for [Samples.button] Samples.button)
              (Samples.rect 1150 5 40 24) eq_refl
              ltac:(left; discriminate))
    as (_ & Hother & Hinfo).
  destruct (C7_current_file_flag
              (Samples.workspace [Samples.row]) Samples.designer
              (Samples.props_for [Samples.row] Samples.row)
              (Samples.rect 20 60 400 120) eq_refl
              ltac:(left; discriminate))
    as (_ & Hcurrent & Hinfo').
  split; [exact Hother|]. split; [exact Hinfo|].
  split; [exact Hcurrent | exact Hinfo'].
Defined.

(** ** An item without prototype *)

(** C10. For every selected item whose name has no entry in the registry
    of prototypes the overlay still renders, on the geometry alone: the
    item is taken as no page, so the toolbar, when shown, has the drag
    handle and the action elements; the list of insertable children is
    empty and the insert dropdown is not rendered. For any item the
    dropdown is rendered only when that list is not empty. *)
Theorem C10_item_without_prototype ws d props :
  componentPrototypes ws !! name (data props) = None ->
  let box := SelectionBox ws d props in
  (box <> Empty <->
   exists b, bounding (data props) = Some b
             /\ (~ (height b == 0)%Q \/ ~ (width b == 0)%Q))
  /\ isPage_of (componentPrototypes ws !! name (data props)) = false
  /\ insertedList_of ws (componentPrototypes ws !! name (data props)) = []
  /\ dropdown_shown box = false
  /\ (toolbar_shown box = true ->
      handle_shown box = true
      /\ actions_slot box = from_option Fragment Empty (actions props))
  /\ (forall ws' d' props',
        dropdown_shown (SelectionBox ws' d' props') = true ->
        insertedList_of ws' (componentPrototypes ws' !! name (data props'))
        <> []).
Proof.
  intros Hnone box. subst box.
  split; [|split; [|split; [|split; [|split]]]].
  - rewrite SelectionBox_Empty_iff, <- has_size_iff.
    by destruct (has_size (data props)).
  - by rewrite Hnone.
  - by rewrite Hnone.
  - destruct (dropdown_shown _) eqn:Hshown; [|done].
    apply dropdown_shown_iff in Hshown as [_ Hlist]. by rewrite Hnone in Hlist.
  - intros [Hsize Hshow]%toolbar_shown_iff. unfold handle_shown.
    rewrite (handle_slot_eq ws d props Hsize Hshow),
            (actions_slot_eq ws d props Hsize Hshow), Hnone.
    by split.
  - intros ws' d' props' Hshown. by apply dropdown_shown_iff in Hshown as [_ ?].
Qed.

Lemma C10_witness_section :
  let ws := Samples.workspace [Samples.section] in
  let props := Samples.props_for [Samples.section] Samples.section in
  let box := SelectionBox ws Samples.designer props in
  componentPrototypes ws !! name (data props) = None
  /\ box <> Empty
  /\ toolbar_shown box = true
  /\ handle_shown box = true
  /\ actions_slot box = Fragment Samples.the_actions
  /\ dropdown_shown box = false.
Proof.
  pose proof (C10_item_without_prototype
                (Samples.workspace [Samples.section]) Samples.designer
                (Samples.props_for [Samples.section] Samples.section) eq_refl)
    as (_ & _ & _ & Hdropdown & Htoolbar & _).
  split; [reflexivity|]. split; [discriminate|]. split; [reflexivity|].
  destruct (Htoolbar eq_refl) as [Hhandle Hactions].
  split; [exact Hhandle|]. split; [exact Hactions | exact Hdropdown].
Defined.

(** ** The handlers of a tree, part by part *)

Lemma all_handlers_Keyed key n : all_handlers (Keyed key n) = all_handlers n.
Proof. reflexivity. Qed.

Lemma all_handlers_Fragment children :
  all_handlers (Fragment children) = flat_map all_handlers children.
Proof.
  unfold all_handlers. simpl.
  induction children as [|c rest IH]; simpl; [reflexivity|].
  by rewrite flat_map_app, IH.
Qed.

Lemma all_handlers_Element component props children :
  all_handlers (Element component props children)
  = own_handlers props
    ++ flat_map (fun p => match p with
                          | (_, PNode m) => all_handlers m
                          | _ => []
                          end) props
    ++ flat_map all_handlers children.
Proof.
  unfold all_handlers at 1. simpl. fold (own_handlers props).
  rewrite flat_map_app. f_equal. f_equal.
  - induction props as [|[k v] rest IH]; simpl; [reflexivity|].
    rewrite flat_map_app, IH. by destruct v.
  - induction children as [|c rest IH]; simpl; [reflexivity|].
    by rewrite flat_map_app, IH.
Qed.

Lemma all_handlers_when cond n :
  all_handlers (when cond n) = if cond then all_handlers n else [].
Proof. by destruct cond. Qed.

Lemma flat_map_mapi_from {A B C} (F : A -> nat -> B) (g : B -> list C)
    (G : A -> nat -> C) :
  (forall x i, g (F x i) = [G x i]) ->
  forall xs start,
    flat_map g (Js.mapi_from start F xs) = Js.mapi_from start G xs.
Proof.
  intros HFG xs. induction xs as [|x rest IH]; intros start; simpl;
    [reflexivity|].
  by rewrite HFG, IH.
Qed.

Lemma all_handlers_SelectionHelper icon label children rest :
  all_handlers (SelectionHelper icon label children rest)
  = own_handlers rest
    ++ flat_map (fun p => match p with
                          | (_, PNode m) => all_handlers m
                          | _ => []
                          end) rest
    ++ all_handlers icon ++ all_handlers label ++ all_handlers children.
Proof.
  unfold SelectionHelper. rewrite all_handlers_Element.
  change (own_handlers (?fixed ++ rest)) with (own_handlers rest).
  f_equal. f_equal. cbn [flat_map]. by rewrite app_nil_r.
Qed.

(** The handlers of a [NameSelector] are the clicks of its entries, one
    for each ancestor, in order. *)
Lemma all_handlers_NameSelector label ps onSelect :
  all_handlers (NameSelector label ps onSelect)
  = Js.mapi (fun parent index =>
               default noop onSelect
                 (with_parents parent (Js.slice (index + 1) (default [] ps))))
            (default [] ps).
Proof.
  unfold NameSelector. rewrite all_handlers_Element.
  cbn [own_handlers omap flat_map app].
  rewrite !all_handlers_Element. cbn [own_handlers omap flat_map app].
  assert (Hlabel : all_handlers (text_of label) = []) by (by destruct label).
  rewrite Hlabel, !app_nil_r. cbn [app].
  apply flat_map_mapi_from. intros parent index.
  rewrite all_handlers_Keyed, all_handlers_SelectionHelper. reflexivity.
Qed.

Lemma all_handlers_InsertedDropdown options onSelect children :
  all_handlers (InsertedDropdown options onSelect children)
  = all_handlers children.
Proof.
  pose proof (overlay_no_handler options onSelect children) as Hoverlay.
  unfold InsertedDropdown in *. rewrite all_handlers_Element.
  cbn [own_handlers omap flat_map app]. unfold overlay_of in Hoverlay.
  cbn [props_of prop String.eqb Ascii.eqb Bool.eqb] in Hoverlay.
  rewrite Hoverlay. cbn [app]. by rewrite app_nil_r.
Qed.

(** ** Every handler of a selection box *)

(** Rewrites the handlers of a tree into those of its parts. *)
Ltac split_handlers :=
  unfold SelectionHelpers, SelectionToolSet;
  repeat first
    [ rewrite all_handlers_NameSelector
    | rewrite all_handlers_InsertedDropdown
    | rewrite all_handlers_SelectionHelper
    | rewrite all_handlers_when
    | rewrite all_handlers_Fragment
    | rewrite all_handlers_Element
    | progress cbn [flat_map app own_handlers] ].

Lemma no_toolbar_no_handler ws d props :
  toolbar_shown (SelectionBox ws d props) = false ->
  all_handlers (SelectionBox ws d props) = [].
Proof.
  intros Hhidden.
  destruct (has_size (data props)) eqn:Hsize.
  - destruct (showActions props) eqn:Hshow.
    + assert (toolbar_shown (SelectionBox ws d props) = true)
        by (by apply toolbar_shown_iff).
      congruence.
    + destruct (SelectionBox_with_size ws d props Hsize) as (tb & -> & _).
      rewrite Hshow. split_handlers. reflexivity.
  - by rewrite (SelectionBox_without_size ws d props Hsize).
Qed.

Lemma SelectionBox_all_handlers ws d props :
  toolbar_shown (SelectionBox ws d props) = true ->
  all_handlers (SelectionBox ws d props)
  = (if isPage_of (componentPrototypes ws !! name (data props)) then []
     else [onDragStart (data props); onDragEnd])
    ++ Js.mapi (fun parent index =>
                  call (selectSource_select
                          (with_parents parent
                             (Js.slice (index + 1)
                                (default [] (parents (data props)))))))
               (default [] (parents (data props)))
    ++ (if isPage_of (componentPrototypes ws !! name (data props)) then []
        else all_handlers (from_option Fragment Empty (actions props))).
Proof.
  intros [Hsize Hshow]%toolbar_shown_iff. revert Hsize.
  open_box; rewrite Hshow; cbn [negb andb when]; split_handlers;
    destruct (isPage_of _), (isFromCurrentFile_of _ _), (0 <? _)%nat;
    cbn [negb default own_handlers omap app];
    change (all_handlers Empty) with (@nil (Eff unit));
    rewrite ?app_nil_r; reflexivity.
Qed.

Lemma map_mapi_from {A B C} (g : B -> C) (F : A -> nat -> B) xs start :
  map g (Js.mapi_from start F xs)
  = Js.mapi_from start (fun x i => g (F x i)) xs.
Proof.
  revert start. induction xs as [|x rest IH]; intros start; simpl;
    [reflexivity|].
  by rewrite IH.
Qed.

Lemma mapi_from_const {A B} (h : A -> B) xs start :
  Js.mapi_from start (fun x _ => h x) xs = map h xs.
Proof.
  revert start. induction xs as [|x rest IH]; intros start; simpl;
    [reflexivity|].
  by rewrite IH.
Qed.

Lemma mapi_from_ext {A B} (F G : A -> nat -> B) xs start :
  (forall x i, F x i = G x i) ->
  Js.mapi_from start F xs = Js.mapi_from start G xs.
Proof.
  intros HFG. revert start. induction xs as [|x rest IH]; intros start; simpl;
    [reflexivity|].
  by rewrite HFG, IH.
Qed.

Lemma Forall_mapi_from {A B} (P : B -> Prop) (F : A -> nat -> B) xs start :
  (forall x i, P (F x i)) -> Forall P (Js.mapi_from start F xs).
Proof.
  intros HP. revert start. induction xs as [|x rest IH]; intros start; simpl;
    constructor; auto.
Qed.

(** X1. When the selection does not have exactly one member (it is empty,
    or it has several items), nothing the overlay renders installs an
    event handler: the boxes only outline the items. *)
Theorem multi_selection_installs_no_handler getWidget ws d actionsProp :
  length (selected ws) <> 1%nat ->
  all_handlers (render getWidget ws d actionsProp) = [].
Proof.
  intros Hlen%Nat.eqb_neq. unfold render, SelectionTools.
  rewrite all_handlers_Fragment, map_map, Hlen. clear Hlen.
  cbn [element_key element_props].
  induction (selected ws) as [|item rest IH]; [reflexivity|].
  cbn [map flat_map]. rewrite IH, app_nil_r, all_handlers_Keyed.
  apply no_toolbar_no_handler.
  destruct (toolbar_shown _) eqn:Htb; [|reflexivity].
  by apply toolbar_shown_iff in Htb as [_ Hshow].
Qed.

Lemma multi_selection_installs_no_handler_witness :
  length (selected (Samples.workspace [Samples.row; Samples.button])) <> 1%nat
  /\ all_handlers
       (render Samples.getWidget
          (Samples.workspace [Samples.row; Samples.button])
          Samples.designer None) = [].
Proof.
  assert (H : length (selected (Samples.workspace [Samples.row; Samples.button]))
              <> 1%nat) by discriminate.
  split; [exact H|].
  exact (multi_selection_installs_no_handler Samples.getWidget
           (Samples.workspace [Samples.row; Samples.button])
           Samples.designer None H).
Defined.

(** X2. The call sequences of all the handlers of a box whose toolbar is
    shown, in document order: drag-start and drag-end of the handle unless
    the item is a page, then for each ancestor one click that selects that
    ancestor with the ancestors after it, then the handlers of the action
    elements unless the item is a page. The box installs no other
    handler. *)
Theorem toolbar_call_inventory ws d props :
  toolbar_shown (SelectionBox ws d props) = true ->
  let page := isPage_of (componentPrototypes ws !! name (data props)) in
  let ancestors := default [] (parents (data props)) in
  map trace (all_handlers (SelectionBox ws d props))
  = (if page then []
     else [[dataTransfer_effectAllowed "move";
            dragSource_set (data props);
            getDragGhostElement;
            dataTransfer_setDragImage DragGhostElement 0 0];
           [dragSource_clear]])
    ++ Js.mapi (fun parent index =>
                  [selectSource_select
                     {| id := id parent; name := name parent;
                        codeId := codeId parent; filename := filename parent;
                        bounding := bounding parent;
                        parents := Some (drop (S index) ancestors) |}])
               ancestors
    ++ (if page then []
        else map trace
               (all_handlers (from_option Fragment Empty (actions props)))).
Proof.
  intros Hshown page ancestors. subst page ancestors.
  rewrite (SelectionBox_all_handlers ws d props Hshown), !map_app.
  unfold Js.mapi. rewrite map_mapi_from.
  f_equal; [by destruct (isPage_of _)|]. f_equal; [|by destruct (isPage_of _)].
  apply mapi_from_ext. intros parent index.
  unfold with_parents, Js.slice. by rewrite Nat.add_1_r.
Qed.

Lemma toolbar_call_inventory_witness :
  toolbar_shown
    (SelectionBox (Samples.workspace [Samples.row]) Samples.designer
       (Samples.props_for [Samples.row] Samples.row)) = true
  /\ map trace
       (all_handlers
          (SelectionBox (Samples.workspace [Samples.row]) Samples.designer
             (Samples.props_for [Samples.row] Samples.row)))
     = [[dataTransfer_effectAllowed "move";
         dragSource_set Samples.row;
         getDragGhostElement;
         dataTransfer_setDragImage DragGhostElement 0 0];
        [dragSource_clear];
        [selectSource_select (with_parents Samples.section [Samples.root])];
        [selectSource_select (with_parents Samples.root [])]].
Proof.
  split; [reflexivity|].
  rewrite (toolbar_call_inventory
             (Samples.workspace [Samples.row]) Samples.designer
             (Samples.props_for [Samples.row] Samples.row) eq_refl).
  reflexivity.
Defined.

(** X3. No handler the overlay installs by itself asks the workspace to
    insert a child: if the handlers of the action elements handed to a box
    make no insertToSelectedNode call, no handler anywhere in the box
    does. *)
Theorem box_never_inserts ws d props :
  Forall (fun c => is_insert_call c = false)
         (reachable_calls (from_option Fragment Empty (actions props))) ->
  Forall (fun c => is_insert_call c = false)
         (reachable_calls (SelectionBox ws d props)).
Proof.
  intros Hactions. unfold reachable_calls in *.
  destruct (toolbar_shown (SelectionBox ws d props)) eqn:Htb.
  - rewrite (SelectionBox_all_handlers ws d props Htb), !flat_map_app.
    repeat apply Forall_app_2.
    + destruct (isPage_of _); simpl; repeat constructor.
    + apply Forall_flat_map, Forall_mapi_from. intros parent index.
      simpl. by repeat constructor.
    + by destruct (isPage_of _).
  - by rewrite (no_toolbar_no_handler ws d props Htb).
Qed.

Lemma box_never_inserts_witness :
  Forall (fun c => is_insert_call c = false)
         (reachable_calls
            (SelectionBox (Samples.workspace [Samples.row]) Samples.designer
               (Samples.props_for [Samples.row] Samples.row))).
Proof.
  apply (box_never_inserts
           (Samples.workspace [Samples.row]) Samples.designer
           (Samples.props_for [Samples.row] Samples.row)).
  simpl. constructor.
Defined.

(** ** The boxes that are drawn *)

Lemma is_empty_SelectionBox ws d props :
  is_empty (SelectionBox ws d props) = negb (has_size (data props)).
Proof.
  destruct (has_size (data props)) eqn:Hsize.
  - by destruct (SelectionBox_with_size ws d props Hsize) as (tb & -> & _).
  - by rewrite (SelectionBox_without_size ws d props Hsize).
Qed.

(** X4. Of the boxes SelectionTools makes, those that render something are
    the ones of the selected items that have a size, in the order of the
    selection; each is keyed by the identifier of its item and carries the
    same identifier in data-selection-id. *)
Theorem drawn_boxes_are_sized_items getWidget ws d actionsProp :
  omap (fun e =>
          let box := SelectionBox ws d (element_props e) in
          if is_empty box then None
          else Some (element_key e, string_prop "data-selection-id" box))
       (SelectionTools getWidget ws actionsProp)
  = map (fun item => (id item, Some (id item)))
        (List.filter has_size (selected ws)).
Proof.
  unfold SelectionTools.
  generalize (length (selected ws) =? 1)%nat as flag.
  set (acts := Some _). clearbody acts. intros flag.
  induction (selected ws) as [|item rest IH]; [reflexivity|].
  cbn [map omap list_omap List.filter]. fold (@omap list _).
  cbn [element_props element_key]. rewrite is_empty_SelectionBox.
  cbn [data]. destruct (has_size item) eqn:Hsize; cbn [negb map].
  - rewrite <- IH. f_equal. f_equal. f_equal.
    set (p := {| showActions := flag; actions := acts; data := item |}).
    by destruct (SelectionBox_with_size ws d p Hsize) as (tb & -> & _).
  - exact IH.
Qed.

(** X5. A box that is rendered always has an inline style: it is a block
    of the width and height of the bounding rectangle, moved to its left
    and top. *)
Theorem drawn_box_is_placed_on_bounding ws d props b :
  bounding (data props) = Some b ->
  SelectionBox ws d props <> Empty ->
  exists style,
    style_prop (SelectionBox ws d props) = Some style
    /\ Css.display style = "block"
    /\ Css.width style = width b
    /\ Css.height style = height b
    /\ Css.transform style = Css.translate_px (left b) (top b).
Proof.
  intros Hb Hdrawn. rewrite SelectionBox_Empty_iff in Hdrawn.
  apply not_false_is_true in Hdrawn.
  destruct (SelectionBox_with_size ws d props Hdrawn) as (tb & -> & _).
  unfold style_prop, style_of. simpl. rewrite Hb. eexists. repeat split.
Qed.

Lemma drawn_box_is_placed_on_bounding_witness :
  exists style,
    style_prop
      (SelectionBox (Samples.workspace [Samples.row; Samples.button])
         Samples.designer
         (Samples.props_for [Samples.row; Samples.button] Samples.button))
    = Some style
    /\ Css.display style = "block"
    /\ Css.width style = 40%Q
    /\ Css.height style = 24%Q
    /\ Css.transform style = Css.translate_px 1150 5.
Proof.
  apply (drawn_box_is_placed_on_bounding
           (Samples.workspace [Samples.row; Samples.button]) Samples.designer
           (Samples.props_for [Samples.row; Samples.button] Samples.button)
           (Samples.rect 1150 5 40 24)).
  - reflexivity.
  - discriminate.
Defined.

(** ** More on the breadcrumb *)

(** X6. The list of a NameSelector has one entry for each ancestor, in
    order; the entry of an ancestor is a list item keyed by the identifier
    of the ancestor and showing its name. *)
Theorem breadcrumb_lists_ancestors label ps onSelect :
  let entries := breadcrumb_entries (NameSelector label ps onSelect) in
  map key_of entries = map (fun p => Some (id p)) (default [] ps)
  /\ map (at_path [2%nat]) entries = map (fun p => Text (name p)) (default [] ps)
  /\ Forall (fun e => string_prop "as" e = Some "li") entries.
Proof.
  unfold breadcrumb_entries, NameSelector.
  cbn [at_path children_of lookup list_lookup]. unfold Js.mapi.
  rewrite !map_mapi_from. split; [|split].
  - apply (mapi_from_const (fun p => Some (id p))).
  - apply (mapi_from_const (fun p => Text (name p))).
  - by apply Forall_mapi_from.
Qed.

(** X7. Re-selecting composes: after a click on the entry of index i, the
    entry of index j of the breadcrumb of the re-selected item asks for
    the same item as the entry of index i + j + 1 of the first breadcrumb,
    and the re-selected item has fewer ancestors than the first one. *)
Theorem breadcrumb_clicks_compose label onSelect ps (i j : nat) p q :
  ps !! i = Some p ->
  drop (S i) ps !! j = Some q ->
  let reselected := with_parents p (Js.slice (i + 1) ps) in
  handler "onClick" <$>
    breadcrumb_entries
      (NameSelector label (parents reselected) (Some onSelect)) !! j
  = handler "onClick" <$>
      breadcrumb_entries (NameSelector label (Some ps) (Some onSelect))
        !! (i + j + 1)%nat
  /\ handler "onClick" <$>
       breadcrumb_entries (NameSelector label (Some ps) (Some onSelect))
         !! (i + j + 1)%nat
     = Some (Some (onSelect (with_parents q (drop (i + j + 2) ps))))
  /\ (length (default [] (parents reselected)) < length ps)%nat.
Proof.
  intros Hp Hq reselected. subst reselected. cbn [with_parents parents].
  unfold Js.slice. rewrite Nat.add_1_r.
  assert (Hq' : ps !! (i + j + 1)%nat = Some q).
  { rewrite lookup_drop in Hq. rewrite <- Hq. f_equal. lia. }
  rewrite (NameSelector_entry label (drop (S i) ps) onSelect j q Hq),
          (NameSelector_entry label ps onSelect (i + j + 1) q Hq').
  unfold Js.slice. rewrite drop_drop.
  replace (S i + (j + 1))%nat with (i + j + 1 + 1)%nat by lia.
  replace (i + j + 2)%nat with (i + j + 1 + 1)%nat by lia.
  repeat split. simpl. rewrite length_drop.
  apply lookup_lt_Some in Hp. lia.
Qed.

Lemma breadcrumb_clicks_compose_witness :
  handler "onClick" <$>
    breadcrumb_entries
      (NameSelector None
         (parents (with_parents Samples.row
                     (Js.slice (0 + 1)
                        [Samples.row; Samples.section; Samples.root])))
         (Some (fun item => call (selectSource_select item)))) !! 1%nat
  = Some (Some (call (selectSource_select (with_parents Samples.root [])))).
Proof.
  destruct (breadcrumb_clicks_compose None
              (fun item => call (selectSource_select item))
              [Samples.row; Samples.section; Samples.root] 0 1
              Samples.row Samples.root eq_refl eq_refl)
    as (Hsame & Hdirect & _).
  exact (eq_trans Hsame Hdirect).
Defined.

(** X8. The defaults of NameSelector: without a list of ancestors it has
    no entry, and without a callback the click on any entry makes no call
    at all. *)
Theorem NameSelector_defaults label :
  (forall onSelect,
     breadcrumb_entries (NameSelector label None onSelect) = [])
  /\ (forall ps,
        length (all_handlers (NameSelector label ps None))
        = length (default [] ps)
        /\ Forall (fun click => trace click = [])
                  (all_handlers (NameSelector label ps None))).
Proof.
  split; [reflexivity|]. intros ps. rewrite all_handlers_NameSelector.
  split; [apply mapi_from_length | by apply Forall_mapi_from].
Qed.

(** X9. The name the toolbar shows is the codeId of the item when it has a
    non-empty one, and the name of its component otherwise. *)
Theorem toolbar_shows_codeId_or_name ws d props :
  toolbar_shown (SelectionBox ws d props) = true ->
  let shown := at_path [0; 0]%nat (name_slot (SelectionBox ws d props)) in
  (forall c, codeId (data props) = Some c -> c <> "" -> shown = Text c)
  /\ (codeId (data props) = None \/ codeId (data props) = Some "" ->
      shown = Text (name (data props))).
Proof.
  intros [Hsize Hshow]%toolbar_shown_iff shown. subst shown.
  rewrite (name_slot_eq ws d props Hsize Hshow). unfold NameSelector.
  cbn [at_path children_of lookup list_lookup text_of]. split.
  - intros c -> Hc. by destruct c.
  - by intros [-> | ->].
Qed.

Lemma toolbar_shows_codeId_or_name_witness :
  at_path [0; 0]%nat
    (name_slot
       (SelectionBox (Samples.workspace [Samples.row]) Samples.designer
          (Samples.props_for [Samples.row] Samples.row))) = Text "row1"
  /\ at_path [0; 0]%nat
       (name_slot
          (SelectionBox (Samples.workspace [Samples.button]) Samples.designer
             (Samples.props_for [Samples.button] Samples.button)))
     = Text "Button".
Proof.
  split.
  - apply (proj1 (toolbar_shows_codeId_or_name
                    (Samples.workspace [Samples.row]) Samples.designer
                    (Samples.props_for [Samples.row] Samples.row) eq_refl)
             "row1"); [reflexivity | discriminate].
  - apply (proj2 (toolbar_shows_codeId_or_name
                    (Samples.workspace [Samples.button]) Samples.designer
                    (Samples.props_for [Samples.button] Samples.button)
                    eq_refl)).
    left. reflexivity.
Defined.

(** ** More on the insert dropdown *)

Lemma dropdown_lists_keys options onSelect children :
  map key_of (overlay_items (InsertedDropdown options onSelect children))
  = map (fun o => Some (inserted_name o)) (default [] options).
Proof.
  unfold overlay_items, overlay_of, InsertedDropdown.
  cbn [props_of prop String.eqb Ascii.eqb Bool.eqb at_path children_of
       lookup list_lookup].
  by rewrite map_map.
Qed.

(** X10. The item of an insertable child shows its label and its
    description; its picture is an icon font, "icon-placeholder" when no
    icon is given and the icon itself when its name starts with "icon-",
    and otherwise an image of that source with the label as alternative
    text. *)
Theorem InsertedItem_icon_rule props :
  let picture := at_path [0; 0]%nat (InsertedItem props) in
  at_path [1; 0; 0]%nat (InsertedItem props) = Text (item_label props)
  /\ at_path [1; 1; 0]%nat (InsertedItem props)
     = text_of (item_description props)
  /\ (item_icon props = None ->
      is_element "IconFont" picture = true
      /\ string_prop "type" picture = Some "icon-placeholder")
  /\ (forall i, item_icon props = Some i -> String.prefix "icon-" i = true ->
      is_element "IconFont" picture = true
      /\ string_prop "type" picture = Some i)
  /\ (forall i, item_icon props = Some i -> String.prefix "icon-" i = false ->
      is_element "img" picture = true
      /\ string_prop "src" picture = Some i
      /\ string_prop "alt" picture = Some (item_label props)).
Proof.
  unfold InsertedItem. cbn [at_path children_of lookup list_lookup].
  split; [reflexivity|]. split; [reflexivity|]. split; [|split].
  - by intros ->.
  - intros i -> Hprefix. change (default _ (Some i)) with i.
    by rewrite Hprefix.
  - intros i -> Hprefix. change (default _ (Some i)) with i.
    by rewrite Hprefix.
Qed.

(** X11. The overlay of the dropdown lists one item for each option, in
    order, keyed by the name of the option and showing its label and its
    description; without options it lists nothing, and the trigger it is
    given stays its only child. *)
Theorem dropdown_lists_options options onSelect children :
  let dropdown := InsertedDropdown options onSelect children in
  let items := overlay_items dropdown in
  map key_of items = map (fun o => Some (inserted_name o)) (default [] options)
  /\ map (at_path [1; 0; 0]%nat) items
     = map (fun o => Text (inserted_label o)) (default [] options)
  /\ map (at_path [1; 1; 0]%nat) items
     = map (fun o => text_of (inserted_description o)) (default [] options)
  /\ children_of dropdown = [children].
Proof.
  unfold overlay_items, overlay_of, InsertedDropdown.
  cbn [props_of prop String.eqb Ascii.eqb Bool.eqb at_path children_of
       lookup list_lookup].
  rewrite !map_map. repeat split.
Qed.

(** X12. InsertedDropdown never runs the callback it is given: the only
    calls reachable from what it renders are those of its trigger. *)
Theorem InsertedDropdown_never_calls_onSelect options onSelect children :
  reachable_calls (InsertedDropdown options onSelect children)
  = reachable_calls children.
Proof.
  unfold reachable_calls. by rewrite all_handlers_InsertedDropdown.
Qed.

(** X13. Every insertable-child entry is resolved from the prototype
    registered under its own name: icon and description are those of that
    prototype (absent without it), the label is its title when that is a
    non-empty string and the name of the child otherwise; so a label is
    empty only for an empty name. *)
Theorem inserted_entries_are_resolved ws prototype :
  Forall (fun e =>
            let proto := componentPrototypes ws !! inserted_name e in
            inserted_icon e = proto ≫= icon
            /\ inserted_description e = proto ≫= help
            /\ (forall t, proto ≫= title = Some t -> t <> "" ->
                inserted_label e = t)
            /\ (proto ≫= title = None \/ proto ≫= title = Some "" ->
                inserted_label e = inserted_name e)
            /\ (inserted_name e <> "" -> inserted_label e <> ""))
         (insertedList_of ws prototype).
Proof.
  unfold insertedList_of. destruct (declared_children prototype) as [cn|];
    [|constructor].
  apply Forall_map, Forall_forall. intros child _. cbn.
  destruct (componentPrototypes ws !! child ≫= title) as [t|];
    unfold Js.or_string.
  - destruct t as [|a t]; cbn.
    + repeat split; try done. by intros t [= <-].
    + repeat split; try done.
      * by intros t' [= <-].
      * by intros [|].
  - repeat split; try done.
Qed.

Lemma insertedList_nonempty_iff ws (prototype : option IComponentPrototype) :
  insertedList_of ws prototype <> [] <->
  exists p, prototype = Some p
    /\ ((exists child, childrenName p = Some (OneName child) /\ child <> "")
        \/ (exists child rest,
              childrenName p = Some (ManyNames (child :: rest)))).
Proof.
  destruct prototype as [p|]; cycle 1.
  { split; [done | by intros (p & [=] & _)]. }
  unfold insertedList_of, declared_children. cbn.
  destruct (childrenName p) as [[child | [|child rest]]|] eqn:Hcn.
  - destruct child as [|a child]; cbn.
    + split; [done|]. intros (p' & [= <-] & H). rewrite Hcn in H.
      by destruct H as [(c & [= <-] & Hc) | (c & r & [=])].
    + split; [|done]. intros _. exists p. split; [done|]. left.
      by eexists.
  - split; [done|]. intros (p' & [= <-] & H). rewrite Hcn in H.
    by destruct H as [(c & [=] & _) | (c & r & [=])].
  - split; [|done]. intros _. exists p. split; [done|]. right. by eexists _, _.
  - split; [done|]. intros (p' & [= <-] & H). rewrite Hcn in H.
    by destruct H as [(c & [=] & _) | (c & r & [=])].
Qed.

(** X14. The insert dropdown is rendered exactly when the toolbar is shown
    and the prototype of the item declares a child: a non-empty name, or
    an array with at least one name. An empty name and an empty array give
    no dropdown. For an array the items of the dropdown are keyed by the
    declared names, in order. *)
Theorem dropdown_exactly_for_declared_children ws d props :
  let box := SelectionBox ws d props in
  let prototype := componentPrototypes ws !! name (data props) in
  (dropdown_shown box = true <->
   toolbar_shown box = true
   /\ exists p, prototype = Some p
        /\ ((exists child, childrenName p = Some (OneName child) /\ child <> "")
            \/ (exists child rest,
                  childrenName p = Some (ManyNames (child :: rest)))))
  /\ (forall p names,
        prototype = Some p -> childrenName p = Some (ManyNames names) ->
        dropdown_shown box = true ->
        map key_of (overlay_items (dropdown_slot box)) = map Some names).
Proof.
  intros box prototype. subst box prototype. split.
  - rewrite dropdown_shown_iff. apply and_iff_compat_l.
    apply insertedList_nonempty_iff.
  - intros p names Hp Hnames Hshown.
    destruct (shown_inside_toolbar ws d props [2%nat] _ Hshown) as [Hsize Hshow].
    rewrite (dropdown_slot_eq ws d props Hsize Hshow), Hp.
    apply dropdown_shown_iff in Hshown as [_ Hne]. rewrite Hp in Hne.
    assert (Hlist : map inserted_name (insertedList_of ws (Some p)) = names).
    { rewrite (insertedList_of_names ws p names), map_map; [apply map_id|].
      unfold declared_children. cbn. by rewrite Hnames. }
    destruct (insertedList_of ws (Some p)) as [|e l] eqn:Hl; [done|].
    cbn [length Nat.ltb Nat.leb when].
    rewrite dropdown_lists_keys. change (default _ (Some ?x)) with x.
    by rewrite <- Hlist, map_map.
Qed.

(** ** The actions handed to the boxes *)

(** X15. Every box gets the same list of actions, as long as the actions
    prop (or its default of three keys): an element of the prop is handed
    over as it is; a key is looked up in the widget registry under
    "selectionMenu.<key>", and gives an element of the registered widget
    keyed by the key, or nothing when no widget is registered, the
    other actions keeping their places. *)
Theorem actions_are_resolved_in_order getWidget ws actionsProp :
  let given := default default_actions actionsProp in
  exists acts,
    length acts = length given
    /\ Forall (fun e => actions (element_props e) = Some acts)
              (SelectionTools getWidget ws actionsProp)
    /\ (forall (i : nat) element,
          given !! i = Some (ActionElement element) ->
          acts !! i = Some element)
    /\ (forall (i : nat) key widget,
          given !! i = Some (ActionKey key) ->
          getWidget ("selectionMenu." +:+ key) = Some widget ->
          acts !! i = Some (Keyed key (Element widget [] [])))
    /\ (forall (i : nat) key,
          given !! i = Some (ActionKey key) ->
          getWidget ("selectionMenu." +:+ key) = None ->
          acts !! i = Some Empty).
Proof.
  intros given. subst given. unfold SelectionTools.
  eexists. split; [|split; [|split; [|split]]].
  2: { apply Forall_map, Forall_forall. intros item _. reflexivity. }
  - apply length_map.
  - intros i element Hi. by rewrite list_lookup_fmap, Hi.
  - intros i key widget Hi Hwidget. rewrite list_lookup_fmap, Hi.
    change (Some match getWidget ("selectionMenu." +:+ key) with
                 | Some w => Keyed key (Element w [] [])
                 | None => Empty
                 end = Some (Keyed key (Element widget [] []))).
    by rewrite Hwidget.
  - intros i key Hi Hwidget. rewrite list_lookup_fmap, Hi.
    change (Some match getWidget ("selectionMenu." +:+ key) with
                 | Some w => Keyed key (Element w [] [])
                 | None => Empty
                 end = Some Empty).
    by rewrite Hwidget.
Qed.

(** ** What a page can do *)

Lemma Forall_mapi {A B} (P : B -> Prop) (F : A -> nat -> B) (xs : list A) :
  (forall (i : nat) x, xs !! i = Some x -> P (F x i)) ->
  Forall P (Js.mapi F xs).
Proof.
  intros HP. apply Forall_lookup. intros i y.
  rewrite mapi_lookup. destruct (xs !! i) as [x|] eqn:Hx; [|done].
  intros [= <-]. by apply HP.
Qed.

(** X16. An item whose prototype is of type 'page' cannot be dragged or
    acted on from the overlay: every call a handler of its box can make
    selects one of its ancestors, with the ancestors after that one. *)
Theorem page_box_only_reselects ws d props :
  type <$> componentPrototypes ws !! name (data props) = Some "page" ->
  let ancestors := default [] (parents (data props)) in
  Forall (fun c =>
            exists (i : nat) p,
              ancestors !! i = Some p
              /\ c = selectSource_select
                       {| id := id p; name := name p; codeId := codeId p;
                          filename := filename p; bounding := bounding p;
                          parents := Some (drop (S i) ancestors) |})
         (reachable_calls (SelectionBox ws d props)).
Proof.
  intros Hpage%isPage_of_true ancestors. subst ancestors.
  unfold reachable_calls.
  destruct (toolbar_shown (SelectionBox ws d props)) eqn:Htb.
  - rewrite (SelectionBox_all_handlers ws d props Htb), Hpage.
    cbn [app]. rewrite app_nil_r. apply Forall_flat_map, Forall_mapi.
    intros i p Hp. cbn. constructor; [|constructor].
    exists i, p. split; [exact Hp|].
    unfold with_parents, Js.slice. by rewrite Nat.add_1_r.
  - rewrite (no_toolbar_no_handler ws d props Htb). constructor.
Qed.

Lemma page_box_only_reselects_witness :
  reachable_calls
    (SelectionBox (Samples.workspace [Samples.inner_page]) Samples.designer
       (Samples.props_for [Samples.inner_page] Samples.inner_page))
  = [selectSource_select (with_parents Samples.section [Samples.root]);
     selectSource_select (with_parents Samples.root [])]
  /\ Forall (fun c =>
               exists (i : nat) p,
                 [Samples.section; Samples.root] !! i = Some p
                 /\ c = selectSource_select
                          {| id := id p; name := name p; codeId := codeId p;
                             filename := filename p; bounding := bounding p;
                             parents :=
                               Some (drop (S i)
                                       [Samples.section; Samples.root]) |})
            (reachable_calls
               (SelectionBox (Samples.workspace [Samples.inner_page])
                  Samples.designer
                  (Samples.props_for [Samples.inner_page]
                     Samples.inner_page))).
Proof.
  split; [reflexivity|].
  exact (page_box_only_reselects
           (Samples.workspace [Samples.inner_page]) Samples.designer
           (Samples.props_for [Samples.inner_page] Samples.inner_page)
           eq_refl).
Defined.
